(** * Build log processing (src/build.py): a shallow embedding and its properties

    The module talks to three services (CodeBuild, CloudWatch Logs, S3) and
    works on the dictionaries those services answer with.  Values are
    modelled as untyped Python data, operations raise the exception the
    interpreter would raise, and the methods of [Build] run in a state and
    exception monad in which a raised exception keeps every mutation made
    before it. *)

From Stdlib Require Import String Ascii List ZArith Bool Arith Lia.
From Stdlib Require Import DecimalString.
Import ListNotations.
Open Scope string_scope.
Open Scope list_scope.

(** ** Python values *)

(** The data the services hand back: [None], booleans, integers, strings,
    lists and dictionaries with string keys.  A string is a sequence of code
    points below 256; a dictionary is an association list in insertion
    order, which is the order a Python dict keeps. *)
#[local] Unset Elimination Schemes.
Inductive value : Type :=
| VNone
| VBool (b : bool)
| VInt (z : Z)
| VStr (s : string)
| VList (l : list value)
| VDict (d : list (string * value)).
#[local] Set Elimination Schemes.

(** The exceptions the module can meet.  [ServiceError] stands for every
    exception class of the client libraries (ClientError, connection
    errors, ...); none of them derives from KeyError. *)
Inductive exn : Type :=
| KeyError
| IndexError
| TypeError
| AttributeError
| ValueError
| ServiceError (name : string).

Inductive result (A : Type) : Type :=
| Ok (a : A)
| Raise (e : exn).
Arguments Ok {A} a.
Arguments Raise {A} e.

(** *** Dictionaries *)

Fixpoint dict_get (k : string) (d : list (string * value)) : option value :=
  match d with
  | [] => None
  | (k', v) :: d' => if String.eqb k k' then Some v else dict_get k d'
  end.

(** [d[k] = v]: an existing key keeps its place, a new key goes last. *)
Fixpoint dict_set (k : string) (v : value) (d : list (string * value))
  : list (string * value) :=
  match d with
  | [] => [(k, v)]
  | (k', v') :: d' =>
      if String.eqb k k' then (k, v) :: d' else (k', v') :: dict_set k v d'
  end.

Definition dict_has (k : string) (d : list (string * value)) : bool :=
  match dict_get k d with Some _ => true | None => false end.

(** *** Equality, [==] *)

(** Lists are compared element by element, dictionaries key by key whatever
    the order, and [True == 1]. *)
Fixpoint py_eq (a b : value) {struct a} : bool :=
  match a, b with
  | VNone, VNone => true
  | VBool x, VBool y => Bool.eqb x y
  | VBool x, VInt y => Z.eqb (if x then 1 else 0) y
  | VInt x, VBool y => Z.eqb x (if y then 1 else 0)
  | VInt x, VInt y => Z.eqb x y
  | VStr x, VStr y => String.eqb x y
  | VList xs, VList ys =>
      (fix all2 (xs ys : list value) : bool :=
         match xs, ys with
         | [], [] => true
         | x :: xs', y :: ys' => py_eq x y && all2 xs' ys'
         | _, _ => false
         end) xs ys
  | VDict xs, VDict ys =>
      Nat.eqb (length xs) (length ys) &&
      (fix sub (xs : list (string * value)) : bool :=
         match xs with
         | [] => true
         | (k, v) :: xs' =>
             match dict_get k ys with
             | Some w => py_eq v w
             | None => false
             end && sub xs'
         end) xs
  | _, _ => false
  end.

(** *** Strings *)

Fixpoint str_prefix (p s : string) : bool :=
  match p, s with
  | EmptyString, _ => true
  | String a p', String b s' => Ascii.eqb a b && str_prefix p' s'
  | String _ _, EmptyString => false
  end.

Fixpoint str_drop (n : nat) (s : string) : string :=
  match n, s with
  | O, _ => s
  | S n', String _ s' => str_drop n' s'
  | S _, EmptyString => EmptyString
  end.

(** [sub in s] on two strings. *)
Fixpoint str_contains (sub s : string) : bool :=
  str_prefix sub s ||
  match s with
  | EmptyString => false
  | String _ s' => str_contains sub s'
  end.

(** [s.split(sep)] for a one-character separator: every occurrence cuts,
    so the result has one more field than there are separators. *)
Fixpoint str_split (sep : ascii) (s : string) : list string :=
  match s with
  | EmptyString => [EmptyString]
  | String c s' =>
      if Ascii.eqb c sep then EmptyString :: str_split sep s'
      else match str_split sep s' with
           | [] => [String c EmptyString]
           | f :: fs => String c f :: fs
           end
  end.

Fixpoint str_chars (s : string) : list string :=
  match s with
  | EmptyString => []
  | String c s' => String c EmptyString :: str_chars s'
  end.

(** *** Operators of the language on values *)

(** [k in c] for a string [k]. *)
Definition py_in (k : string) (c : value) : result bool :=
  match c with
  | VDict d => Ok (dict_has k d)
  | VList l => Ok (existsb (fun x => py_eq x (VStr k)) l)
  | VStr s => Ok (str_contains k s)
  | _ => Raise TypeError
  end.

(** [c[k]] for a string [k]. *)
Definition py_getitem (c : value) (k : string) : result value :=
  match c with
  | VDict d =>
      match dict_get k d with
      | Some v => Ok v
      | None => Raise KeyError
      end
  | _ => Raise TypeError
  end.

(** [c[n]] for a non-negative integer [n]; the keys of a dictionary are
    strings, so an integer is never among them. *)
Definition py_index (c : value) (n : nat) : result value :=
  match c with
  | VList l =>
      match nth_error l n with
      | Some v => Ok v
      | None => Raise IndexError
      end
  | VStr s =>
      match nth_error (str_chars s) n with
      | Some ch => Ok (VStr ch)
      | None => Raise IndexError
      end
  | VDict _ => Raise KeyError
  | _ => Raise TypeError
  end.

(** [c[k] = v] for a string [k]. *)
Definition py_setitem (c : value) (k : string) (v : value) : result value :=
  match c with
  | VDict d => Ok (VDict (dict_set k v d))
  | _ => Raise TypeError
  end.

(** [c.get(k, default)]: only dictionaries have the method. *)
Definition py_get (c : value) (k : string) (default : value) : result value :=
  match c with
  | VDict d =>
      match dict_get k d with
      | Some v => Ok v
      | None => Ok default
      end
  | _ => Raise AttributeError
  end.

(** [c.split('/')]: only strings have the method. *)
Definition py_split (c : value) (sep : ascii) : result (list string) :=
  match c with
  | VStr s => Ok (str_split sep s)
  | _ => Raise AttributeError
  end.

(** [iter(c)]: the elements of a list, the characters of a string, the keys
    of a dictionary. *)
Definition py_iter (c : value) : result (list value) :=
  match c with
  | VList l => Ok l
  | VStr s => Ok (map VStr (str_chars s))
  | VDict d => Ok (map (fun kv => VStr (fst kv)) d)
  | _ => Raise TypeError
  end.

Definition list_index {A} (l : list A) (n : nat) : result A :=
  match nth_error l n with
  | Some x => Ok x
  | None => Raise IndexError
  end.

(** ** The services and the configuration *)

(** A request sent to a service, as the module words it. *)
Inductive call : Type :=
| BatchGetBuilds (ids : list value)
| BatchGetBuildBatches (ids : list value)
| FilterLogEvents (logGroupName : value) (logStreamNames : list value)
| PutObject (Key : string) (Body : string) (ContentType : string).

(** The three clients and [config].  A client answers a request with a
    response or raises.  The paginator of the logging service is lazy: it
    is given as the pages it yields one after the other, and the exception
    that ends the iteration when a later request fails. *)
Record Env : Type := {
  batch_get_builds : list value -> result value;
  batch_get_build_batches : list value -> result value;
  filter_log_events : value -> list value -> list value * option exn;
  put_object : string -> string -> string -> result unit;
  BUILD_LOGS_API_ENDPOINT : string
}.

(** ** The [Build] object *)

(** The attributes of an instance.  [_build_details] is [None] as long as
    the attribute does not exist ([hasattr] is false). *)
Record Build : Type := {
  _build_event : value;
  id : value;
  project_name : value;
  status : value;
  group_identifier : value;
  _build_details : option value
}.

(** The instance together with the requests sent so far, oldest first. *)
Record State : Type := {
  self : Build;
  calls : list call
}.

(** ** State and exception monad *)

Definition M (A : Type) : Type := State -> result A * State.

Definition ret {A} (a : A) : M A := fun s => (Ok a, s).

Definition raise {A} (e : exn) : M A := fun s => (Raise e, s).

Definition bind {A B} (m : M A) (k : A -> M B) : M B :=
  fun s =>
    match m s with
    | (Ok a, s') => k a s'
    | (Raise e, s') => (Raise e, s')
    end.

Notation "x <- m ;; k" := (bind m (fun x => k))
  (at level 61, m at next level, right associativity).
Notation "m ;;; k" := (bind m (fun _ => k))
  (at level 61, right associativity).

Definition lift {A} (r : result A) : M A :=
  match r with
  | Ok a => ret a
  | Raise e => raise e
  end.

(** [try: m  except KeyError: return], seen from the code after it: [None]
    when the handler returned, the value of [m] otherwise.  Whatever [m] did
    to the state before raising stays done. *)
Definition try_except_KeyError {A} (m : M A) : M (option A) :=
  fun s =>
    match m s with
    | (Ok a, s') => (Ok (Some a), s')
    | (Raise KeyError, s') => (Ok None, s')
    | (Raise e, s') => (Raise e, s')
    end.

Definition get_self : M Build := fun s => (Ok (self s), s).

Definition set_self (b : Build) : M unit :=
  fun s => (Ok tt, {| self := b; calls := calls s |}).

Definition record (c : call) : M unit :=
  fun s => (Ok tt, {| self := self s; calls := calls s ++ [c] |}).

(** Reading [self._build_details]. *)
Definition self_build_details : M value :=
  b <- get_self ;;
  match _build_details b with
  | Some d => ret d
  | None => raise AttributeError
  end.

(** Assignments to the attributes of [self]. *)
Definition with_build_details (b : Build) (d : value) : Build :=
  {| _build_event := _build_event b; id := id b;
     project_name := project_name b; status := status b;
     group_identifier := group_identifier b;
     _build_details := Some d |}.

Definition with_group_identifier (b : Build) (v : value) : Build :=
  {| _build_event := _build_event b; id := id b;
     project_name := project_name b; status := status b;
     group_identifier := v;
     _build_details := _build_details b |}.

Definition with_status (b : Build) (v : value) : Build :=
  {| _build_event := _build_event b; id := id b;
     project_name := project_name b; status := v;
     group_identifier := group_identifier b;
     _build_details := _build_details b |}.

Definition set_build_details (d : value) : M unit :=
  b <- get_self ;; set_self (with_build_details b d).

Definition set_group_identifier (v : value) : M unit :=
  b <- get_self ;; set_self (with_group_identifier b v).

Definition set_status (v : value) : M unit :=
  b <- get_self ;; set_self (with_status b v).

(** ** Library functions the module calls *)

Definition is_digit (c : ascii) : bool :=
  (48 <=? nat_of_ascii c)%nat && (nat_of_ascii c <=? 57)%nat.

(** The longest prefix made of decimal digits, what a greedy [\d+] takes.
    Among code points below 256 the class [\d] is exactly 0..9. *)
Fixpoint take_digits (s : string) : string :=
  match s with
  | EmptyString => EmptyString
  | String c s' => if is_digit c then String c (take_digits s') else EmptyString
  end.

(** [re.match(r'^pr\/(\d+)', s)]: the text of group 1 when the pattern
    matches at the start of [s]. *)
Definition re_match_pr (s : string) : option string :=
  if str_prefix "pr/" s then
    match take_digits (str_drop 3 s) with
    | EmptyString => None
    | ds => Some ds
    end
  else None.

(** [re.match] refuses anything but a string. *)
Definition re_match (v : value) : result (option string) :=
  match v with
  | VStr s => Ok (re_match_pr s)
  | _ => Raise TypeError
  end.

(** The value of a string of decimal digits, read left to right. *)
Fixpoint int_digits (acc : Z) (ds : string) : Z :=
  match ds with
  | EmptyString => acc
  | String c ds' => int_digits (10 * acc + (Z.of_nat (nat_of_ascii c) - 48)) ds'
  end.

(** The most digits [int] converts, [sys.int_info.default_max_str_digits];
    leading zeros count. *)
Definition int_max_str_digits : nat := 4300.

(** [int(ds)] on a string of decimal digits: ValueError when the string is
    longer than the limit. *)
Definition py_int (ds : string) : result Z :=
  if (String.length ds <=? int_max_str_digits)%nat then Ok (int_digits 0 ds)
  else Raise ValueError.

Definition hex_upper (n : nat) : ascii :=
  if (n <? 10)%nat then ascii_of_nat (48 + n) else ascii_of_nat (55 + n).

Definition hex_lower (n : nat) : ascii :=
  if (n <? 10)%nat then ascii_of_nat (48 + n) else ascii_of_nat (87 + n).

(** The UTF-8 encoding of a code point below 256. *)
Definition utf8 (c : ascii) : list nat :=
  let n := nat_of_ascii c in
  if (n <? 128)%nat then [n] else [192 + n / 64; 128 + n mod 64]%nat.

(** Letters, digits and [_.-~], which [quote] never escapes. *)
Definition always_safe (c : ascii) : bool :=
  let n := nat_of_ascii c in
  ((65 <=? n) && (n <=? 90) || (97 <=? n) && (n <=? 122) ||
   (48 <=? n) && (n <=? 57) ||
   (n =? 95) || (n =? 46) || (n =? 45) || (n =? 126))%nat.

Fixpoint percent (bs : list nat) : string :=
  match bs with
  | [] => EmptyString
  | b :: bs' =>
      String "%" (String (hex_upper (b / 16))
                    (String (hex_upper (b mod 16)) (percent bs')))
  end.

(** [urllib.parse.quote(s, safe)]: a character is kept if it is always safe
    or listed in [safe]; otherwise each byte of its UTF-8 encoding becomes
    [%XX] with upper-case digits. *)
Fixpoint quote (safe : ascii -> bool) (s : string) : string :=
  match s with
  | EmptyString => EmptyString
  | String c s' =>
      if always_safe c || safe c then String c (quote safe s')
      else percent (utf8 c) ++ quote safe s'
  end.

Fixpoint replace_char (a b : ascii) (s : string) : string :=
  match s with
  | EmptyString => EmptyString
  | String c s' => String (if Ascii.eqb c a then b else c) (replace_char a b s')
  end.

(** [urllib.parse.quote_plus(s)]: without a space it is [quote(s, '')];
    with one, the string is quoted with the space kept and every space is
    then replaced by a plus sign. *)
Definition quote_plus (s : string) : string :=
  if str_contains " " s then
    replace_char " " "+" (quote (fun c => Ascii.eqb c " ") s)
  else quote (fun _ => false) s.

(** [repr] of a string: single quotes unless the text has a single quote
    and no double quote; backslash, the quote in use, tab, newline and
    carriage return are escaped, the code points that are not printable are
    written [\xhh]. *)
Definition repr_char (q c : ascii) : string :=
  let n := nat_of_ascii c in
  if (n =? 92)%nat then "\\"
  else if Ascii.eqb c q then String "\" (String q EmptyString)
  else if (n =? 9)%nat then "\t"
  else if (n =? 10)%nat then "\n"
  else if (n =? 13)%nat then "\r"
  else if ((n <? 32) || (127 <=? n) && (n <=? 160) || (n =? 173))%nat then
    String "\" (String "x" (String (hex_lower (n / 16))
                               (String (hex_lower (n mod 16)) EmptyString)))
  else String c EmptyString.

Fixpoint repr_chars (q : ascii) (s : string) : string :=
  match s with
  | EmptyString => EmptyString
  | String c s' => repr_char q c ++ repr_chars q s'
  end.

Definition dquote : ascii := ascii_of_nat 34.

Definition repr_str (s : string) : string :=
  let q : ascii :=
    if str_contains "'" s && negb (str_contains (String dquote EmptyString) s)
    then dquote else "'"%char in
  String q (repr_chars q s ++ String q EmptyString).

Definition str_int (z : Z) : string := NilZero.string_of_int (Z.to_int z).

Fixpoint join (sep : string) (l : list string) : string :=
  match l with
  | [] => EmptyString
  | [x] => x
  | x :: l' => x ++ sep ++ join sep l'
  end.

(** [repr(v)]. *)
Fixpoint py_repr (v : value) : string :=
  match v with
  | VNone => "None"
  | VBool true => "True"
  | VBool false => "False"
  | VInt z => str_int z
  | VStr s => repr_str s
  | VList l => "[" ++ join ", " (map py_repr l) ++ "]"
  | VDict d =>
      "{" ++ join ", " (map (fun kv => (repr_str (fst kv) ++ ": " ++ py_repr (snd kv))%string) d)
          ++ "}"
  end.

(** No integer inside [v] has more decimal digits than the interpreter
    prints, the sign not counted. *)
Fixpoint printable (v : value) : bool :=
  match v with
  | VInt z => (String.length (str_int (Z.abs z)) <=? int_max_str_digits)%nat
  | VList l => forallb printable l
  | VDict d => forallb (fun kv => printable (snd kv)) d
  | _ => true
  end.

(** [str(v)], which is what a bare [{}] of [str.format] inserts: ValueError
    when an integer with too many digits has to be written. *)
Definition py_str (v : value) : result string :=
  match v with
  | VStr s => Ok s
  | _ => if printable v then Ok (py_repr v) else Raise ValueError
  end.

(** [''.join(l)]: every item has to be a string. *)
Fixpoint py_join (l : list value) : result string :=
  match l with
  | [] => Ok EmptyString
  | VStr s :: l' =>
      match py_join l' with
      | Ok r => Ok (s ++ r)%string
      | Raise e => Raise e
      end
  | _ :: _ => Raise TypeError
  end.

(** ** The methods of [Build] *)

(** [__init__]: the attributes read from the event; [_build_details] does
    not exist yet. *)
Definition __init__ (build_event : value) : result Build :=
  match py_getitem build_event "detail" with
  | Raise e => Raise e
  | Ok detail =>
      match py_getitem detail "build-id" with
      | Raise e => Raise e
      | Ok bid =>
          match py_getitem detail "project-name" with
          | Raise e => Raise e
          | Ok pname =>
              match py_getitem detail "build-status" with
              | Raise e => Raise e
              | Ok st =>
                  Ok {| _build_event := build_event; id := bid;
                        project_name := pname; status := st;
                        group_identifier := VNone;
                        _build_details := None |}
              end
          end
      end
  end.

Section Methods.

Variable env : Env.

(** The inner function of [_process_batch] that recognises the group the
    event was fired for. *)
Definition iterator_callback (group : value) : M bool :=
  has_summary <- lift (py_in "currentBuildSummary" group) ;;
  if negb has_summary then ret false else
  summary <- lift (py_getitem group "currentBuildSummary") ;;
  has_arn <- lift (py_in "arn" summary) ;;
  if negb has_arn then ret false else
  summary <- lift (py_getitem group "currentBuildSummary") ;;
  group_arn <- lift (py_getitem summary "arn") ;;
  details <- self_build_details ;;
  build_arn <- lift (py_getitem details "arn") ;;
  ret (py_eq group_arn build_arn).

(** [next(filter(f, groups), False)]: the filter is lazy, [f] runs on the
    groups in order and stops at the first one it accepts.  [None] stands
    for the default [False]. *)
Fixpoint next_filter (f : value -> M bool) (groups : list value)
  : M (option value) :=
  match groups with
  | [] => ret None
  | g :: groups' =>
      keep <- f g ;;
      if keep then ret (Some g) else next_filter f groups'
  end.

Definition _process_batch : M unit :=
  details <- self_build_details ;;
  in_batch <- lift (py_in "buildBatchArn" details) ;;
  if negb in_batch then ret tt else
  fetched <- try_except_KeyError (
      details <- self_build_details ;;
      batch_arn <- lift (py_getitem details "buildBatchArn") ;;
      parts <- lift (py_split batch_arn "/") ;;
      batch_id <- lift (list_index parts 1) ;;
      record (BatchGetBuildBatches [VStr batch_id]) ;;;
      response <- lift (batch_get_build_batches env [VStr batch_id]) ;;
      batches <- lift (py_getitem response "buildBatches") ;;
      lift (py_index batches 0)) ;;
  match fetched with
  | None => ret tt
  | Some batch =>
      has_version <- lift (py_in "sourceVersion" batch) ;;
      if negb has_version then ret tt else
      version <- lift (py_getitem batch "sourceVersion") ;;
      details <- self_build_details ;;
      details' <- lift (py_setitem details "sourceVersion" version) ;;
      set_build_details details' ;;;
      has_groups <- lift (py_in "buildGroups" batch) ;;
      if negb has_groups then ret tt else
      groups <- lift (py_getitem batch "buildGroups") ;;
      groups <- lift (py_iter groups) ;;
      found <- next_filter iterator_callback groups ;;
      match found with
      | None => ret tt
      | Some group =>
          has_identifier <- lift (py_in "identifier" group) ;;
          if negb has_identifier then ret tt else
          identifier <- lift (py_getitem group "identifier") ;;
          set_group_identifier identifier ;;;
          summary <- lift (py_getitem group "currentBuildSummary") ;;
          item_status <- lift (py_getitem summary "buildStatus") ;;
          set_status item_status
      end
  end.

(** The call to [LOG.debug] changes nothing the module can observe and is
    left out. *)
Definition _get_build_details : M value :=
  b <- get_self ;;
  match _build_details b with
  | Some _ => self_build_details
  | None =>
      record (BatchGetBuilds [id b]) ;;;
      response <- lift (batch_get_builds env [id b]) ;;
      builds <- lift (py_getitem response "builds") ;;
      first <- lift (py_index builds 0) ;;
      set_build_details first ;;;
      _process_batch ;;;
      self_build_details
  end.

Definition get_pr_id : M value :=
  details <- _get_build_details ;;
  version <- lift (py_get details "sourceVersion" (VStr "")) ;;
  matches <- lift (re_match version) ;;
  match matches with
  | None => ret VNone
  | Some digits =>
      n <- lift (py_int digits) ;;
      ret (VInt n)
  end.

Definition commit_id : M value :=
  details <- _get_build_details ;;
  lift (py_getitem details "resolvedSourceVersion").

Definition is_pr_build : M bool :=
  pr <- get_pr_id ;;
  match pr with
  | VNone => ret false
  | _ => ret true
  end.

Definition _get_logs_key : M string :=
  details <- _get_build_details ;;
  logs <- lift (py_getitem details "logs") ;;
  log_stream <- lift (py_getitem logs "streamName") ;;
  stream <- lift (py_str log_stream) ;;
  ret (stream ++ "/build.log")%string.

(** The messages of the events of one page, [event['message'] for event in
    page['events']]. *)
Fixpoint event_messages (events : list value) : result (list value) :=
  match events with
  | [] => Ok []
  | event :: events' =>
      match py_getitem event "message" with
      | Raise e => Raise e
      | Ok m =>
          match event_messages events' with
          | Raise e => Raise e
          | Ok ms => Ok (m :: ms)
          end
      end
  end.

(** The list comprehension over the pages the paginator yields; [failure]
    is the exception that ends the iteration, if one does. *)
Fixpoint page_messages (pages : list value) (failure : option exn)
  : result (list value) :=
  match pages with
  | [] =>
      match failure with
      | Some e => Raise e
      | None => Ok []
      end
  | page :: pages' =>
      match py_getitem page "events" with
      | Raise e => Raise e
      | Ok events =>
          match py_iter events with
          | Raise e => Raise e
          | Ok events =>
              match event_messages events with
              | Raise e => Raise e
              | Ok ms =>
                  match page_messages pages' failure with
                  | Raise e => Raise e
                  | Ok rest => Ok (ms ++ rest)
                  end
              end
          end
      end
  end.

Definition copy_logs : M unit :=
  details <- _get_build_details ;;
  log_info <- lift (py_getitem details "logs") ;;
  log_group <- lift (py_getitem log_info "groupName") ;;
  log_stream <- lift (py_getitem log_info "streamName") ;;
  record (FilterLogEvents log_group [log_stream]) ;;;
  messages <- lift (let (pages, failure) := filter_log_events env log_group [log_stream] in
                    page_messages pages failure) ;;
  logs_content <- lift (py_join messages) ;;
  key <- _get_logs_key ;;
  record (PutObject key logs_content "text/plain") ;;;
  lift (put_object env key logs_content "text/plain").

Definition get_logs_url : M string :=
  key <- _get_logs_key ;;
  ret (BUILD_LOGS_API_ENDPOINT env ++ "?key=" ++ quote_plus key)%string.

End Methods.

(** ** Vocabulary of the properties *)

Fixpoint str_forall (p : ascii -> bool) (s : string) : bool :=
  match s with
  | EmptyString => true
  | String c s' => p c && str_forall p s'
  end.

Definition digit_value (c : ascii) : Z := Z.of_nat (nat_of_ascii c) - 48.

(** The number a digit string denotes, most significant digit first. *)
Fixpoint decimal (ds : string) : Z :=
  match ds with
  | EmptyString => 0
  | String c ds' => digit_value c * 10 ^ Z.of_nat (String.length ds') + decimal ds'
  end.

(** [rest] does not go on with a digit. *)
Definition no_digit_ahead (rest : string) : Prop :=
  match rest with
  | EmptyString => True
  | String c _ => is_digit c = false
  end.

(** [sv] reads [pr/<digits>] at its start. *)
Definition pr_reference (sv : string) : Prop :=
  exists ds rest,
    sv = ("pr/" ++ ds ++ rest)%string /\ ds <> EmptyString /\
    str_forall is_digit ds = true.

(** What [get_pr_id] makes of the text of a [sourceVersion]: [None] without
    a match, the integer of the digits with one, ValueError when [int]
    refuses them. *)
Definition pr_id_of (sv : string) : result value :=
  match re_match_pr sv with
  | None => Ok VNone
  | Some ds =>
      match py_int ds with
      | Ok n => Ok (VInt n)
      | Raise e => Raise e
      end
  end.

(** [n] times the character [c]. *)
Fixpoint str_repeat (c : ascii) (n : nat) : string :=
  match n with
  | O => EmptyString
  | S n' => String c (str_repeat c n')
  end.

(** A state as a constructor call leaves it: the instance and no request
    sent yet. *)
Definition fresh (b : Build) : State := {| self := b; calls := [] |}.

(** The state in which batch resolution starts: the query has been sent and
    its first result stored. *)
Definition stored (s : State) (first : value) : State :=
  {| self := with_build_details (self s) first;
     calls := calls s ++ [BatchGetBuilds [id (self s)]] |}.

(** ** Sample data *)

Definition sample_event (build_status : string) : value :=
  VDict [("detail",
          VDict [("build-id", VStr "proj:b1");
                 ("project-name", VStr "proj");
                 ("build-status", VStr build_status)])].

Definition sample_logs : value :=
  VDict [("groupName", VStr "/aws/codebuild/proj");
         ("streamName", VStr "my stream/1")].

(** Details of a build that belongs to no batch. *)
Definition sample_details (source_version : string) : value :=
  VDict [("id", VStr "proj:b1");
         ("arn", VStr "arn:aws:codebuild:eu-west-1:1:build/proj:b1");
         ("sourceVersion", VStr source_version);
         ("resolvedSourceVersion", VStr "a1b2c3");
         ("logs", sample_logs)].

(** Details that carry neither [sourceVersion] nor
    [resolvedSourceVersion]. *)
Definition bare_details : value :=
  VDict [("id", VStr "proj:b1");
         ("arn", VStr "arn:aws:codebuild:eu-west-1:1:build/proj:b1");
         ("logs", sample_logs)].

(** Details of an item of the batch [proj:batch1]. *)
Definition sample_item_details : value :=
  VDict [("id", VStr "proj:b1");
         ("arn", VStr "arn:aws:codebuild:eu-west-1:1:build/proj:b1");
         ("sourceVersion", VStr "a1b2c3");
         ("resolvedSourceVersion", VStr "a1b2c3");
         ("buildBatchArn", VStr "arn:aws:codebuild:eu-west-1:1:build-batch/proj:batch1");
         ("logs", sample_logs)].

Definition sample_pages : list value :=
  [VDict [("events", VList [VDict [("message", VStr "A: ")];
                            VDict [("message", VStr ("B" ++ String (ascii_of_nat 10) ""))]])];
   VDict [("events", VList [VDict [("message", VStr "C: ")];
                            VDict [("message", VStr ("D" ++ String (ascii_of_nat 10) ""))]])]].

(** Services that answer every request the same way: [details] for the
    build, [batches] for the batch. *)
Definition sample_env (details : value) (batches : result value) : Env :=
  {| batch_get_builds := fun _ => Ok (VDict [("builds", VList [details])]);
     batch_get_build_batches := fun _ => batches;
     filter_log_events := fun _ _ => (sample_pages, None);
     put_object := fun _ _ _ => Ok tt;
     BUILD_LOGS_API_ENDPOINT := "https://logs.example/api" |}.

Definition sample_build (build_status : string) : Build :=
  {| _build_event := sample_event build_status;
     id := VStr "proj:b1";
     project_name := VStr "proj";
     status := VStr build_status;
     group_identifier := VNone;
     _build_details := None |}.

(** *** Log pages and the query string *)

(** All the strings of a list one after the other, nothing in between. *)
Definition str_concat (l : list string) : string :=
  fold_right append EmptyString l.

(** [ev] is a log event whose message is the string [m]. *)
Definition event_of (ev : value) (m : string) : Prop :=
  exists e, ev = VDict e /\ dict_get "message" e = Some (VStr m).

(** [page] is a page whose events carry the messages [ms], in that order. *)
Definition page_of (page : value) (ms : list string) : Prop :=
  exists p evs,
    page = VDict p /\ dict_get "events" p = Some (VList evs) /\
    Forall2 event_of evs ms.

(** The encoding of one character in a query value: a plus sign for the
    space, the character itself when it is a letter, a digit or one of
    [_.-~], and [%XX] for every byte of its UTF-8 encoding otherwise. *)
Definition form_encode_char (c : ascii) : string :=
  if Ascii.eqb c " " then "+"
  else if always_safe c then String c EmptyString
  else percent (utf8 c).

Fixpoint form_encode (s : string) : string :=
  match s with
  | EmptyString => EmptyString
  | String c s' => form_encode_char c ++ form_encode s'
  end.

(** The characters an encoded query value is made of. *)
Definition encoded_char (c : ascii) : bool :=
  always_safe c || Ascii.eqb c "%" || Ascii.eqb c "+".

(** The requests [l] holds beyond the first [n]. *)
Definition calls_after (n : nat) (l : list call) : list call := skipn n l.

Definition count_calls (p : call -> bool) (l : list call) : nat :=
  length (filter p l).

Definition is_BatchGetBuilds (c : call) : bool :=
  match c with BatchGetBuilds _ => true | _ => false end.

(** The requests that go to the build service, whichever operation. *)
Definition is_build_service_call (c : call) : bool :=
  match c with
  | BatchGetBuilds _ | BatchGetBuildBatches _ => true
  | _ => false
  end.

(** *** Batches *)

(** The state once the request for the batch [batch_id] has been sent. *)
Definition requested (s : State) (batch_id : string) : State :=
  {| self := self s;
     calls := calls s ++ [BatchGetBuildBatches [VStr batch_id]] |}.

(** What the answer of the service designates as the batch,
    [response['buildBatches'][0]]. *)
Definition fetched_batch (env : Env) (batch_id : string) : result value :=
  match batch_get_build_batches env [VStr batch_id] with
  | Raise e => Raise e
  | Ok response =>
      match py_getitem response "buildBatches" with
      | Raise e => Raise e
      | Ok batches => py_index batches 0
      end
  end.

(** The state once the [sourceVersion] of the batch has been written into
    the build details [d]. *)
Definition versioned (s : State) (batch_id : string)
    (d : list (string * value)) (version : value) : State :=
  {| self := with_build_details (self s) (VDict (dict_set "sourceVersion" version d));
     calls := calls s ++ [BatchGetBuildBatches [VStr batch_id]] |}.

(** A group record: a dictionary whose [currentBuildSummary], when there is
    one, is a dictionary. *)
Definition is_group (g : value) : Prop :=
  exists gd,
    g = VDict gd /\
    (dict_get "currentBuildSummary" gd = None \/
     exists sd, dict_get "currentBuildSummary" gd = Some (VDict sd)).

(** [currentBuildSummary.arn] of a group record, when it has one. *)
Definition summary_arn (g : value) : option value :=
  match g with
  | VDict gd =>
      match dict_get "currentBuildSummary" gd with
      | Some (VDict sd) => dict_get "arn" sd
      | _ => None
      end
  | _ => None
  end.

(** The group record [g] is the one of the build whose arn is [a]. *)
Definition group_of (a : value) (g : value) : bool :=
  match summary_arn g with
  | Some a' => py_eq a' a
  | None => false
  end.

(** [g] is the first group of [groups] that belongs to the build [a]; the
    records before it are well formed, what comes after it is arbitrary. *)
Definition first_group_of (a : value) (groups : list value) (g : value) : Prop :=
  exists before after,
    groups = before ++ g :: after /\
    Forall is_group before /\
    Forall (fun g' => group_of a g' = false) before /\
    is_group g /\ group_of a g = true.

(** The state once [group_identifier] has been assigned. *)
Definition identified (s : State) (identifier : value) : State :=
  {| self := with_group_identifier (self s) identifier; calls := calls s |}.

(** The state once [status] has been assigned as well. *)
Definition resolved (s : State) (identifier item_status : value) : State :=
  {| self := with_status (with_group_identifier (self s) identifier) item_status;
     calls := calls s |}.

(** *** Relations between the state before and after a method *)

(** [m] takes every state to one that [R] relates it to, whether it returns
    or raises. *)
Definition preserves {A} (R : State -> State -> Prop) (m : M A) : Prop :=
  forall s, R s (snd (m s)).

(** Steps of batch resolution: requests are only added, none of them is a
    [batch_get_builds], and the attribute [_build_details], once there,
    stays. *)
Definition batch_step (s s' : State) : Prop :=
  (exists extra, calls s' = calls s ++ extra /\
                 count_calls is_BatchGetBuilds extra = 0) /\
  (_build_details (self s) <> None -> _build_details (self s') <> None).

(** Steps that leave the attribute [_build_details] alone. *)
Definition details_kept (s s' : State) : Prop :=
  _build_details (self s') = _build_details (self s).

(** The conditions under which a build of a batch is left as the event
    described it.  [d] is the build details, [batch_id] the batch asked
    for. *)
Inductive benign (env : Env) (d : list (string * value)) (batch_id : string)
  : Prop :=
| service_raises_KeyError :
    batch_get_build_batches env [VStr batch_id] = Raise KeyError ->
    benign env d batch_id
| response_without_buildBatches r :
    batch_get_build_batches env [VStr batch_id] = Ok (VDict r) ->
    dict_get "buildBatches" r = None ->
    benign env d batch_id
| batch_without_sourceVersion b :
    fetched_batch env batch_id = Ok (VDict b) ->
    dict_get "sourceVersion" b = None ->
    benign env d batch_id
| batch_without_buildGroups b :
    fetched_batch env batch_id = Ok (VDict b) ->
    dict_get "buildGroups" b = None ->
    benign env d batch_id
| no_group_of_the_build b groups a :
    fetched_batch env batch_id = Ok (VDict b) ->
    dict_get "buildGroups" b = Some (VList groups) ->
    dict_get "arn" d = Some a ->
    Forall is_group groups ->
    Forall (fun g => group_of a g = false) groups ->
    benign env d batch_id
| group_without_identifier b groups a gd :
    fetched_batch env batch_id = Ok (VDict b) ->
    dict_get "buildGroups" b = Some (VList groups) ->
    dict_get "arn" d = Some a ->
    first_group_of a groups (VDict gd) ->
    dict_get "identifier" gd = None ->
    benign env d batch_id.

(** *** Sample batches *)

Definition sample_arn : string := "arn:aws:codebuild:eu-west-1:1:build/proj:b1".

Definition other_arn : string := "arn:aws:codebuild:eu-west-1:1:build/proj:b2".

Definition optional (k : string) (v : option string) : list (string * value) :=
  match v with
  | Some x => [(k, VStr x)]
  | None => []
  end.

Definition sample_group (identifier : option string) (arn : string)
    (build_status : option string) : value :=
  VDict (optional "identifier" identifier ++
         [("currentBuildSummary",
           VDict (("arn", VStr arn) :: optional "buildStatus" build_status))]).

(** A batch that failed as a whole. *)
Definition sample_batch (version : option string) (groups : option (list value))
  : value :=
  VDict ([("id", VStr "proj:batch1"); ("buildBatchStatus", VStr "FAILED")] ++
         optional "sourceVersion" version ++
         match groups with
         | Some gs => [("buildGroups", VList gs)]
         | None => []
         end).

Definition batch_response (batches : list value) : result value :=
  Ok (VDict [("buildBatches", VList batches);
             ("buildBatchesNotFound", VList [])]).

(** The item of the event succeeded, its sibling failed. *)
Definition two_groups : list value :=
  [sample_group (Some "windows") other_arn (Some "FAILED");
   sample_group (Some "linux") sample_arn (Some "SUCCEEDED")].

(** The services for an item of [proj:batch1], given how the request for
    the batch is answered. *)
Definition batch_env (batches : result value) : Env :=
  sample_env sample_item_details batches.

Definition item_details : list (string * value) :=
  match sample_item_details with
  | VDict d => d
  | _ => []
  end.

(** The same arn twice: a record without identifier, then a complete one. *)
Definition twice_the_build : list value :=
  [sample_group None sample_arn (Some "FAILED");
   sample_group (Some "linux") sample_arn (Some "SUCCEEDED")].

(** *** What the methods leave alone *)

(** The attributes read from the event are kept, requests are only added,
    and the attribute [_build_details], once there, stays. *)
Definition frame (s s' : State) : Prop :=
  id (self s') = id (self s) /\
  project_name (self s') = project_name (self s) /\
  _build_event (self s') = _build_event (self s) /\
  (exists extra, calls s' = calls s ++ extra) /\
  (_build_details (self s) <> None -> _build_details (self s') <> None).

(** Nothing changes at all. *)
Definition untouched (s s' : State) : Prop := s' = s.

(** No request is sent. *)
Definition calls_kept (s s' : State) : Prop := calls s' = calls s.

(** What the build service designates as the build,
    [response['builds'][0]]. *)
Definition fetched_build (env : Env) (b : Build) : result value :=
  match batch_get_builds env [id b] with
  | Raise e => Raise e
  | Ok response =>
      match py_getitem response "builds" with
      | Raise e => Raise e
      | Ok builds => py_index builds 0
      end
  end.

(** The state once the query for the build has been sent. *)
Definition queried (s : State) : State :=
  {| self := self s; calls := calls s ++ [BatchGetBuilds [id (self s)]] |}.

(** What batch resolution may have done to an instance [b]: nothing; or
    written into the build details the [sourceVersion] of the batch that
    the service gives for the second segment of [buildBatchArn]; or, after
    that, assigned the identifier of a group of that batch to
    [group_identifier]; or, after both, assigned the [buildStatus] of the
    same group to [status]. *)
Definition batch_effect (env : Env) (b b' : Build) : Prop :=
  b' = b \/
  exists d batch_arn batch_id batch v,
    _build_details b = Some (VDict d) /\
    dict_get "buildBatchArn" d = Some (VStr batch_arn) /\
    list_index (str_split "/" batch_arn) 1 = Ok batch_id /\
    fetched_batch env batch_id = Ok batch /\
    py_getitem batch "sourceVersion" = Ok v /\
    let bv := with_build_details b (VDict (dict_set "sourceVersion" v d)) in
    b' = bv \/
    exists listed groups group identifier,
      py_getitem batch "buildGroups" = Ok listed /\
      py_iter listed = Ok groups /\
      In group groups /\
      py_getitem group "identifier" = Ok identifier /\
      (b' = with_group_identifier bv identifier \/
       exists summary item_status,
         py_getitem group "currentBuildSummary" = Ok summary /\
         py_getitem summary "buildStatus" = Ok item_status /\
         b' = with_status (with_group_identifier bv identifier) item_status).

Definition is_PutObject (c : call) : bool :=
  match c with PutObject _ _ _ => true | _ => false end.

(** *** Reading an encoded query value back *)

Definition hex_value (c : ascii) : nat :=
  let n := nat_of_ascii c in
  if ((48 <=? n) && (n <=? 57))%nat then n - 48
  else if ((65 <=? n) && (n <=? 70))%nat then n - 55
  else 0.

(** The decoding a receiver of the query applies: a plus sign is a space,
    [%XX] is the byte [XX], and a byte of 128 or more starts the two-byte
    UTF-8 encoding of a code point below 256. *)
Fixpoint form_decode (s : string) : string :=
  match s with
  | EmptyString => EmptyString
  | String c r =>
      if Ascii.eqb c "+" then String " " (form_decode r)
      else if Ascii.eqb c "%" then
        match r with
        | String h1 (String h2 r') =>
            let b := (hex_value h1 * 16 + hex_value h2)%nat in
            if (b <? 128)%nat then String (ascii_of_nat b) (form_decode r')
            else
              match r' with
              | String _ (String h3 (String h4 r'')) =>
                  let b' := (hex_value h3 * 16 + hex_value h4)%nat in
                  String (ascii_of_nat ((b - 192) * 64 + (b' - 128)))
                         (form_decode r'')
              | _ => String c (form_decode r)
              end
        | _ => String c (form_decode r)
        end
      else String c (form_decode r)
  end.

(** *** More sample data *)

(** A state whose instance already holds the build details [d]. *)
Definition cached (d : value) : State :=
  {| self := with_build_details (sample_build "FAILED") d; calls := [] |}.

(** Services whose answer to the query for the build is [builds]. *)
Definition query_env (builds : result value) : Env :=
  {| batch_get_builds := fun _ => builds;
     batch_get_build_batches := fun _ => Raise KeyError;
     filter_log_events := fun _ _ => (sample_pages, None);
     put_object := fun _ _ _ => Ok tt;
     BUILD_LOGS_API_ENDPOINT := "https://logs.example/api" |}.

(** Services whose paginator fails after the first page. *)
Definition broken_logs_env : Env :=
  {| batch_get_builds := fun _ => Ok (VDict [("builds", VList [sample_details "pr/42"])]);
     batch_get_build_batches := fun _ => Raise KeyError;
     filter_log_events :=
       fun _ _ => (firstn 1 sample_pages, Some (ServiceError "ThrottlingException"));
     put_object := fun _ _ _ => Ok tt;
     BUILD_LOGS_API_ENDPOINT := "https://logs.example/api" |}.

(** Details of a batch item that carry no [arn]. *)
Definition item_details_without_arn : list (string * value) :=
  [("id", VStr "proj:b1");
   ("sourceVersion", VStr "a1b2c3");
   ("buildBatchArn", VStr "arn:aws:codebuild:eu-west-1:1:build-batch/proj:batch1");
   ("logs", sample_logs)].

(** Details whose [sourceVersion] is there and is [None]. *)
Definition details_with_null_version : list (string * value) :=
  [("id", VStr "proj:b1"); ("sourceVersion", VNone); ("logs", sample_logs)].

(** ** Reasoning in the monad *)

Lemma bind_Ok {A B} (m : M A) (k : A -> M B) s a s' :
  m s = (Ok a, s') -> bind m k s = k a s'.
Proof. intros H. unfold bind. rewrite H. reflexivity. Qed.

Lemma bind_Raise {A B} (m : M A) (k : A -> M B) s e s' :
  m s = (Raise e, s') -> bind m k s = (Raise e, s').
Proof. intros H. unfold bind. rewrite H. reflexivity. Qed.

Lemma lift_Ok {A} (r : result A) a s : r = Ok a -> lift r s = (Ok a, s).
Proof. intros ->. reflexivity. Qed.

Lemma lift_Raise {A} (r : result A) e s : r = Raise e -> lift r s = (Raise e, s).
Proof. intros ->. reflexivity. Qed.

Lemma bind_lift {A B} (r : result A) (k : A -> M B) s :
  bind (lift r) k s =
  match r with
  | Ok a => k a s
  | Raise e => (Raise e, s)
  end.
Proof. destruct r; reflexivity. Qed.

Lemma bind_record {B} c (k : unit -> M B) s :
  bind (record c) k s = k tt {| self := self s; calls := calls s ++ [c] |}.
Proof. reflexivity. Qed.

Lemma bind_set_build_details {B} v (k : unit -> M B) s :
  bind (set_build_details v) k s =
  k tt {| self := with_build_details (self s) v; calls := calls s |}.
Proof. reflexivity. Qed.

Lemma bind_set_group_identifier {B} v (k : unit -> M B) s :
  bind (set_group_identifier v) k s =
  k tt {| self := with_group_identifier (self s) v; calls := calls s |}.
Proof. reflexivity. Qed.

Lemma bind_try_except_KeyError {A B} (m : M A) (k : option A -> M B) s :
  bind (try_except_KeyError m) k s =
  match m s with
  | (Ok a, s') => k (Some a) s'
  | (Raise KeyError, s') => k None s'
  | (Raise e, s') => (Raise e, s')
  end.
Proof.
  unfold bind, try_except_KeyError.
  destruct (m s) as [[a|[]] s']; reflexivity.
Qed.

Lemma self_build_details_Some s d :
  _build_details (self s) = Some d -> self_build_details s = (Ok d, s).
Proof.
  intros H. unfold self_build_details, bind, get_self. rewrite H. reflexivity.
Qed.

Lemma self_build_details_inv s r s' :
  self_build_details s = (r, s') ->
  s' = s /\ (forall d, r = Ok d -> _build_details (self s) = Some d).
Proof.
  unfold self_build_details, bind, get_self.
  destruct (_build_details (self s)) as [d0|]; cbn; intros H; inversion H; subst;
    split; auto; intros d Hd; inversion Hd; reflexivity.
Qed.

Lemma bind_self_build_details {B} (k : value -> M B) s d :
  _build_details (self s) = Some d -> bind self_build_details k s = k d s.
Proof.
  intros H. apply bind_Ok, self_build_details_Some, H.
Qed.

Section Memo.

Variable env : Env.

(** Once the attribute exists, [_get_build_details] only reads it. *)
Lemma _get_build_details_cached s d :
  _build_details (self s) = Some d ->
  _get_build_details env s = (Ok d, s).
Proof.
  intros H. unfold _get_build_details.
  unfold bind at 1. unfold get_self. rewrite H.
  apply self_build_details_Some, H.
Qed.

(** Whatever a returning call hands out is what the attribute holds. *)
Lemma _get_build_details_stored s d s' :
  _get_build_details env s = (Ok d, s') ->
  _build_details (self s') = Some d.
Proof.
  unfold _get_build_details. unfold bind at 1. unfold get_self.
  destruct (_build_details (self s)) eqn:E.
  - intros H. apply self_build_details_inv in H. destruct H as [-> H]. auto.
  - unfold bind.
    repeat match goal with
           | |- context [match ?m ?st with pair _ _ => _ end] =>
               destruct (m st) as [[?|?] ?] eqn:?
           end; intros H; try discriminate.
    apply self_build_details_inv in H. destruct H as [-> H]. auto.
Qed.

End Memo.

(** ** The constructor *)

Lemma __init___sample st : __init__ (sample_event st) = Ok (sample_build st).
Proof. reflexivity. Qed.

(** ** [commit_id] *)

Section Accessors.

Variable env : Env.

(** C8: [commit_id] hands out the [resolvedSourceVersion] entry of the
    fetched build details unchanged, and raises KeyError, which nothing in
    the module catches, when the details have no such entry. *)
Theorem commit_id_resolvedSourceVersion s d s' :
  _get_build_details env s = (Ok (VDict d), s') ->
  (forall v, dict_get "resolvedSourceVersion" d = Some v ->
             commit_id env s = (Ok v, s')) /\
  (dict_get "resolvedSourceVersion" d = None ->
   commit_id env s = (Raise KeyError, s')).
Proof.
  intros H. unfold commit_id. rewrite (bind_Ok _ _ _ _ _ H).
  split.
  - intros v Hv. apply lift_Ok. cbn. rewrite Hv. reflexivity.
  - intros Hv. apply lift_Raise. cbn. rewrite Hv. reflexivity.
Qed.

End Accessors.

Lemma commit_id_resolvedSourceVersion_witness :
  commit_id (sample_env (sample_details "pr/42") (Raise KeyError))
            (fresh (sample_build "SUCCEEDED"))
  = (Ok (VStr "a1b2c3"),
     {| self := {| _build_event := sample_event "SUCCEEDED";
                   id := VStr "proj:b1"; project_name := VStr "proj";
                   status := VStr "SUCCEEDED"; group_identifier := VNone;
                   _build_details := Some (sample_details "pr/42") |};
        calls := [BatchGetBuilds [VStr "proj:b1"]] |}) /\
  fst (commit_id (sample_env bare_details (Raise KeyError))
                 (fresh (sample_build "SUCCEEDED")))
  = Raise KeyError.
Proof.
  split.
  - refine (proj1 (commit_id_resolvedSourceVersion _ _ _ _ _) _ _);
      reflexivity.
  - match goal with
    | |- fst ?x = _ =>
        rewrite (proj2 (commit_id_resolvedSourceVersion
                          (sample_env bare_details (Raise KeyError))
                          (fresh (sample_build "SUCCEEDED")) _ _ eq_refl) eq_refl)
    end.
    reflexivity.
Defined.

(** ** The pattern [^pr\/(\d+)] and [int] *)

Lemma str_prefix_split p s :
  str_prefix p s = true -> s = (p ++ str_drop (String.length p) s)%string.
Proof.
  revert s. induction p as [|a p IH]; intros [|b s]; cbn; try discriminate; auto.
  intros H. apply andb_prop in H. destruct H as [Hab Hp].
  apply Ascii.eqb_eq in Hab. subst b. f_equal. apply IH, Hp.
Qed.

Lemma take_digits_split s :
  exists rest,
    s = (take_digits s ++ rest)%string /\
    str_forall is_digit (take_digits s) = true /\ no_digit_ahead rest.
Proof.
  induction s as [|c s IH]; cbn.
  - exists EmptyString. repeat split.
  - destruct (is_digit c) eqn:Hc.
    + destruct IH as (rest & Hs & Hd & Hr). exists rest. cbn. rewrite Hc.
      repeat split; auto. f_equal. exact Hs.
    + exists (String c s). repeat split. exact Hc.
Qed.

Lemma take_digits_greedy ds rest :
  str_forall is_digit ds = true -> no_digit_ahead rest ->
  take_digits (ds ++ rest) = ds.
Proof.
  induction ds as [|c ds IH]; cbn; intros Hd Hr.
  - destruct rest as [|c r]; cbn in *; auto. rewrite Hr. reflexivity.
  - apply andb_prop in Hd. destruct Hd as [Hc Hd]. rewrite Hc.
    f_equal. apply IH; assumption.
Qed.

Lemma re_match_pr_sound sv ds :
  re_match_pr sv = Some ds ->
  exists rest, sv = ("pr/" ++ ds ++ rest)%string /\ ds <> EmptyString /\
               str_forall is_digit ds = true /\ no_digit_ahead rest.
Proof.
  unfold re_match_pr. destruct (str_prefix "pr/" sv) eqn:Hp; [|discriminate].
  apply str_prefix_split in Hp. cbn [String.length] in Hp.
  destruct (take_digits_split (str_drop 3 sv)) as (rest & Hs & Hd & Hr).
  destruct (take_digits (str_drop 3 sv)) as [|c t] eqn:Ht; [discriminate|].
  intros H. inversion H. subst ds. exists rest.
  split; [|split; [discriminate|split; assumption]].
  rewrite Hp at 1. rewrite Hs at 1. reflexivity.
Qed.

Lemma re_match_pr_complete ds rest :
  ds <> EmptyString -> str_forall is_digit ds = true -> no_digit_ahead rest ->
  re_match_pr ("pr/" ++ ds ++ rest) = Some ds.
Proof.
  intros Hne Hd Hr. unfold re_match_pr. cbn [append str_prefix]. 
  rewrite !Ascii.eqb_refl. cbn [andb str_drop].
  rewrite (take_digits_greedy _ _ Hd Hr).
  destruct ds; [contradiction|reflexivity].
Qed.

Lemma re_match_pr_None sv :
  ~ pr_reference sv -> re_match_pr sv = None.
Proof.
  intros Hn. destruct (re_match_pr sv) as [ds|] eqn:E; auto.
  exfalso. apply Hn. apply re_match_pr_sound in E.
  destruct E as (rest & ? & ? & ? & _). exists ds, rest. auto.
Qed.

Lemma int_digits_decimal ds acc :
  int_digits acc ds = (acc * 10 ^ Z.of_nat (String.length ds) + decimal ds)%Z.
Proof.
  revert acc. induction ds as [|c ds IH]; intros acc; cbn [int_digits decimal String.length].
  - cbn. lia.
  - rewrite IH. fold (digit_value c).
    rewrite Nat2Z.inj_succ, Z.pow_succ_r by lia. ring.
Qed.

Lemma py_int_decimal ds :
  String.length ds <= int_max_str_digits -> py_int ds = Ok (decimal ds).
Proof.
  intros H. unfold py_int. apply Nat.leb_le in H. rewrite H.
  rewrite int_digits_decimal. f_equal; lia.
Qed.

Lemma py_int_too_long ds :
  int_max_str_digits < String.length ds -> py_int ds = Raise ValueError.
Proof.
  intros H. unfold py_int. apply Nat.leb_gt in H. rewrite H. reflexivity.
Qed.

(** [int] raises nothing but ValueError. *)
Lemma py_int_raises ds e : py_int ds = Raise e -> e = ValueError.
Proof.
  unfold py_int. destruct (String.length ds <=? int_max_str_digits)%nat;
    intros H; inversion H; reflexivity.
Qed.

(** ** [get_pr_id] and [is_pr_build] *)

Section PullRequest.

Variable env : Env.

Lemma get_pr_id_run s d s' sv :
  _get_build_details env s = (Ok (VDict d), s') ->
  py_get (VDict d) "sourceVersion" (VStr "") = Ok (VStr sv) ->
  get_pr_id env s = (pr_id_of sv, s').
Proof.
  intros H Hsv. unfold get_pr_id. rewrite (bind_Ok _ _ _ _ _ H).
  rewrite (bind_Ok _ _ _ _ _ (lift_Ok _ _ _ Hsv)).
  rewrite bind_lift. cbn [re_match]. unfold pr_id_of.
  destruct (re_match_pr sv) as [ds|]; [|reflexivity].
  rewrite bind_lift. destruct (py_int ds); reflexivity.
Qed.

Lemma is_pr_build_run s v s' :
  get_pr_id env s = (Ok v, s') ->
  is_pr_build env s =
  (Ok match v with VNone => false | _ => true end, s').
Proof.
  intros H. unfold is_pr_build. rewrite (bind_Ok _ _ _ _ _ H).
  destruct v; reflexivity.
Qed.

(** [get_pr_id] returns [None] or an integer, nothing else. *)
Lemma get_pr_id_range s v s' :
  get_pr_id env s = (Ok v, s') -> v = VNone \/ exists n, v = VInt n.
Proof.
  unfold get_pr_id, bind.
  destruct (_get_build_details env s) as [[d|e] s1]; [|discriminate].
  destruct (lift (py_get d "sourceVersion" (VStr "")) s1) as [[sv|e] s2];
    [|discriminate].
  destruct (lift (re_match sv) s2) as [[[ds|]|e] s3]; cbn;
    [|intros H; inversion H; eauto|discriminate].
  destruct (py_int ds); cbn; intros H; inversion H; eauto.
Qed.

Lemma is_pr_build_True s s1 :
  is_pr_build env s = (Ok true, s1) <->
  exists n, get_pr_id env s = (Ok (VInt n), s1).
Proof.
  split.
  - intros Hb. destruct (get_pr_id env s) as [[v|e] s2] eqn:E.
    + rewrite (is_pr_build_run _ _ _ E) in Hb.
      destruct (get_pr_id_range _ _ _ E) as [->|[n ->]]; inversion Hb; eauto.
    + unfold is_pr_build in Hb. rewrite (bind_Raise _ _ _ _ _ E) in Hb.
      discriminate.
  - intros [n Hn]. rewrite (is_pr_build_run _ _ _ Hn). reflexivity.
Qed.

Lemma is_pr_build_False s s1 :
  is_pr_build env s = (Ok false, s1) <-> get_pr_id env s = (Ok VNone, s1).
Proof.
  split.
  - intros Hb. destruct (get_pr_id env s) as [[v|e] s2] eqn:E.
    + rewrite (is_pr_build_run _ _ _ E) in Hb.
      destruct (get_pr_id_range _ _ _ E) as [->|[n ->]]; inversion Hb; eauto.
    + unfold is_pr_build in Hb. rewrite (bind_Raise _ _ _ _ _ E) in Hb.
      discriminate.
  - intros Hn. rewrite (is_pr_build_run _ _ _ Hn). reflexivity.
Qed.

(** C7, as amended: on build details whose (possibly batch-overridden)
    [sourceVersion] is the string [sv], [get_pr_id] looks for [pr/<digits>]
    at the start of [sv]: with at most 4300 digits it returns the integer
    they write, with more it raises ValueError, which [int] raises and
    nothing catches, and it returns [None] when [sv] does not start that
    way; so [pr/42] gives 42 and [a1b2c3] gives [None].  On every build,
    [is_pr_build] answers [True] exactly when [get_pr_id] returns an
    integer, and [False] exactly when it returns [None]. *)
Theorem get_pr_id_matches_pr_digits :
  (forall s d s' sv,
      _get_build_details env s = (Ok (VDict d), s') ->
      dict_get "sourceVersion" d = Some (VStr sv) ->
      (forall ds rest,
          sv = ("pr/" ++ ds ++ rest)%string -> ds <> EmptyString ->
          str_forall is_digit ds = true -> no_digit_ahead rest ->
          (String.length ds <= int_max_str_digits ->
           get_pr_id env s = (Ok (VInt (decimal ds)), s')) /\
          (int_max_str_digits < String.length ds ->
           get_pr_id env s = (Raise ValueError, s') /\
           is_pr_build env s = (Raise ValueError, s'))) /\
      (~ pr_reference sv -> get_pr_id env s = (Ok VNone, s')) /\
      (sv = "pr/42" -> get_pr_id env s = (Ok (VInt 42), s')) /\
      (sv = "a1b2c3" -> get_pr_id env s = (Ok VNone, s'))) /\
  (forall s s1, is_pr_build env s = (Ok true, s1) <->
                exists n, get_pr_id env s = (Ok (VInt n), s1)) /\
  (forall s s1, is_pr_build env s = (Ok false, s1) <->
                get_pr_id env s = (Ok VNone, s1)).
Proof.
  split; [|split; [apply is_pr_build_True|apply is_pr_build_False]].
  intros s d s' sv H Hsv.
  assert (Hget : py_get (VDict d) "sourceVersion" (VStr "") = Ok (VStr sv))
    by (cbn; rewrite Hsv; reflexivity).
  pose proof (get_pr_id_run _ _ _ _ H Hget) as Hrun. unfold pr_id_of in Hrun.
  split; [|split; [|split]].
  - intros ds rest -> Hne Hd Hr.
    rewrite (re_match_pr_complete _ _ Hne Hd Hr) in Hrun. split.
    + intros Hlen. rewrite Hrun, (py_int_decimal _ Hlen). reflexivity.
    + intros Hlen. rewrite (py_int_too_long _ Hlen) in Hrun.
      split; [exact Hrun|]. unfold is_pr_build.
      rewrite (bind_Raise _ _ _ _ _ Hrun). reflexivity.
  - intros Hn. rewrite Hrun, (re_match_pr_None _ Hn). reflexivity.
  - intros ->. rewrite Hrun. reflexivity.
  - intros ->. rewrite Hrun. reflexivity.
Qed.

(** C10: when the fetched build details have no [sourceVersion] entry,
    the lookup falls back on the empty string, the pattern does not match
    it, and instead of raising [get_pr_id] returns [None] and [is_pr_build]
    returns [False]. *)
Theorem get_pr_id_without_sourceVersion s d s' :
  _get_build_details env s = (Ok (VDict d), s') ->
  dict_get "sourceVersion" d = None ->
  py_get (VDict d) "sourceVersion" (VStr "") = Ok (VStr "") /\
  re_match (VStr "") = Ok None /\
  get_pr_id env s = (Ok VNone, s') /\
  is_pr_build env s = (Ok false, s').
Proof.
  intros H Hsv.
  assert (Hget : py_get (VDict d) "sourceVersion" (VStr "") = Ok (VStr ""))
    by (cbn; rewrite Hsv; reflexivity).
  pose proof (get_pr_id_run _ _ _ _ H Hget) as Hrun.
  change (pr_id_of "") with (@Ok value VNone) in Hrun.
  repeat split; auto.
  rewrite (is_pr_build_run _ _ _ Hrun). reflexivity.
Qed.

End PullRequest.

Lemma get_pr_id_matches_pr_digits_witness :
  let env := sample_env (sample_details "pr/42") (Raise KeyError) in
  let s := fresh (sample_build "SUCCEEDED") in
  get_pr_id env s = (Ok (VInt 42), snd (_get_build_details env s)).
Proof.
  intros env s.
  refine (proj1 (proj2 (proj2
            (proj1 (get_pr_id_matches_pr_digits env) s _ _ "pr/42" _ _))) _);
    reflexivity.
Defined.

Lemma get_pr_id_without_sourceVersion_witness :
  let env := sample_env bare_details (Raise KeyError) in
  let s := fresh (sample_build "SUCCEEDED") in
  fst (get_pr_id env s) = Ok VNone /\ fst (is_pr_build env s) = Ok false.
Proof.
  intros env s.
  destruct (get_pr_id_without_sourceVersion env s _ _ eq_refl eq_refl)
    as (_ & _ & Hid & Hpr).
  rewrite Hid, Hpr. split; reflexivity.
Defined.

(** ** [copy_logs] and [get_logs_url] *)

Lemma event_messages_of evs ms :
  Forall2 event_of evs ms -> event_messages evs = Ok (map VStr ms).
Proof.
  induction 1 as [|ev m evs ms (e & -> & Hm) _ IH]; cbn.
  - reflexivity.
  - rewrite Hm, IH. reflexivity.
Qed.

Lemma page_messages_of pages mss :
  Forall2 page_of pages mss ->
  page_messages pages None = Ok (map VStr (concat mss)).
Proof.
  induction 1 as [|page ms pages mss (p & evs & -> & Hp & Hev) _ IH];
    cbn [page_messages concat].
  - reflexivity.
  - cbn [py_getitem]. rewrite Hp. cbn [py_iter].
    rewrite (event_messages_of _ _ Hev), IH, map_app. reflexivity.
Qed.

Lemma py_join_strings l : py_join (map VStr l) = Ok (str_concat l).
Proof.
  induction l as [|x l IH]; cbn.
  - reflexivity.
  - rewrite IH. reflexivity.
Qed.

Section Logs.

Variable env : Env.

Lemma _get_logs_key_run s d s' li sn :
  _get_build_details env s = (Ok (VDict d), s') ->
  dict_get "logs" d = Some (VDict li) ->
  dict_get "streamName" li = Some (VStr sn) ->
  _get_logs_key env s = (Ok (sn ++ "/build.log")%string, s').
Proof.
  intros H Hl Hs. unfold _get_logs_key. rewrite (bind_Ok _ _ _ _ _ H).
  unfold bind, lift. cbn. rewrite Hl. cbn. rewrite Hs. reflexivity.
Qed.

(** C5: with build details that name a log group and a stream [sn], and a
    paginator that yields pages whose events carry the messages [mss],
    [copy_logs] sends one [put_object] with key [sn/build.log], content type
    [text/plain] and, as body, all the messages in page order then in-page
    order with nothing between them, and it ends as that request ends.  For
    the pages [A: ], [B\n] and [C: ], [D\n] the body is [A: B\nC: D\n]. *)
Theorem copy_logs_concatenates_messages s d s' li g sn pages mss :
  _get_build_details env s = (Ok (VDict d), s') ->
  dict_get "logs" d = Some (VDict li) ->
  dict_get "groupName" li = Some g ->
  dict_get "streamName" li = Some (VStr sn) ->
  filter_log_events env g [VStr sn] = (pages, None) ->
  Forall2 page_of pages mss ->
  let key := (sn ++ "/build.log")%string in
  let body := str_concat (concat mss) in
  copy_logs env s =
  (put_object env key body "text/plain",
   {| self := self s';
      calls := calls s' ++ [FilterLogEvents g [VStr sn];
                            PutObject key body "text/plain"] |}) /\
  (mss = [["A: "; String "B" (String (ascii_of_nat 10) "")];
          ["C: "; String "D" (String (ascii_of_nat 10) "")]] ->
   body = String "A" (String ":" (String " " (String "B" (String (ascii_of_nat 10)
          (String "C" (String ":" (String " " (String "D"
          (String (ascii_of_nat 10) "")))))))))).
Proof.
  intros H Hl Hg Hs Hf Hp key body. split.
  - unfold copy_logs. rewrite (bind_Ok _ _ _ _ _ H).
    unfold bind at 1. unfold lift at 1. cbn [py_getitem]. rewrite Hl.
    unfold bind at 1. unfold lift at 1. cbn [py_getitem ret]. rewrite Hg.
    unfold bind at 1. unfold lift at 1. cbn [py_getitem ret]. rewrite Hs.
    unfold bind at 1. cbn [ret record].
    rewrite Hf, (page_messages_of _ _ Hp).
    unfold bind at 1. unfold lift at 1. cbn [ret].
    rewrite py_join_strings.
    unfold bind at 1. unfold lift at 1. cbn [ret].
    assert (Hk : _get_logs_key env
                   {| self := self s'; calls := calls s' ++ [FilterLogEvents g [VStr sn]] |}
                 = (Ok key, {| self := self s';
                               calls := calls s' ++ [FilterLogEvents g [VStr sn]] |})).
    { eapply _get_logs_key_run with (sn := sn); eauto.
      apply _get_build_details_cached. cbn.
      eapply _get_build_details_stored; eauto. }
    rewrite (bind_Ok _ _ _ _ _ Hk).
    unfold bind, record. cbn. rewrite <- app_assoc. cbn.
    fold key. fold body.
    destruct (put_object env key body "text/plain"); reflexivity.
  - intros ->. reflexivity.
Qed.

End Logs.

Lemma copy_logs_concatenates_messages_witness :
  let env := sample_env (sample_details "pr/42") (Raise KeyError) in
  let s := fresh (sample_build "SUCCEEDED") in
  let body := String "A" (String ":" (String " " (String "B" (String (ascii_of_nat 10)
              (String "C" (String ":" (String " " (String "D"
              (String (ascii_of_nat 10) ""))))))))) in
  copy_logs env s =
  (Ok tt,
   {| self := self (snd (_get_build_details env s));
      calls := [BatchGetBuilds [VStr "proj:b1"];
                FilterLogEvents (VStr "/aws/codebuild/proj") [VStr "my stream/1"];
                PutObject "my stream/1/build.log" body "text/plain"] |}).
Proof.
  intros env s body.
  refine (proj1 (copy_logs_concatenates_messages env s _ _ _
                   (VStr "/aws/codebuild/proj") "my stream/1" sample_pages
                   [["A: "; String "B" (String (ascii_of_nat 10) "")];
                    ["C: "; String "D" (String (ascii_of_nat 10) "")]]
                   eq_refl eq_refl eq_refl eq_refl eq_refl _)).
  repeat (constructor; [eexists; eexists; repeat split;
                        repeat (constructor; [eexists; split; reflexivity|])|]);
    constructor.
Defined.

(** ** [quote_plus] *)

Lemma replace_char_app a b s t :
  replace_char a b (s ++ t) = (replace_char a b s ++ replace_char a b t)%string.
Proof. induction s as [|c s IH]; cbn; [reflexivity|rewrite IH; reflexivity]. Qed.

Ltac each_ascii c :=
  destruct c as [[] [] [] [] [] [] [] []].

Lemma percent_utf8_no_space c :
  replace_char " " "+" (percent (utf8 c)) = percent (utf8 c).
Proof. each_ascii c; reflexivity. Qed.

Lemma percent_utf8_encoded c :
  str_forall encoded_char (percent (utf8 c)) = true.
Proof. each_ascii c; reflexivity. Qed.

Lemma quote_keeping_space s :
  replace_char " " "+" (quote (fun c => Ascii.eqb c " ") s) = form_encode s.
Proof.
  induction s as [|c s IH]; cbn [quote form_encode]; [reflexivity|].
  unfold form_encode_char.
  destruct (Ascii.eqb c " ") eqn:Hsp.
  - rewrite orb_true_r. cbn. rewrite Hsp, IH. reflexivity.
  - rewrite orb_false_r. destruct (always_safe c) eqn:Hsafe.
    + cbn. rewrite Hsp, IH. reflexivity.
    + rewrite replace_char_app, percent_utf8_no_space, IH. reflexivity.
Qed.

Lemma str_contains_cons sub c s :
  str_contains sub (String c s) = false -> str_contains sub s = false.
Proof. cbn [str_contains]. intros H. apply orb_false_elim in H. tauto. Qed.

Lemma quote_without_space s :
  str_contains " " s = false -> quote (fun _ => false) s = form_encode s.
Proof.
  induction s as [|c s IH]; cbn [quote form_encode]; [reflexivity|].
  intros H. rewrite (IH (str_contains_cons _ _ _ H)).
  unfold form_encode_char. rewrite orb_false_r.
  destruct (Ascii.eqb c " ") eqn:Hsp.
  - apply Ascii.eqb_eq in Hsp. subst c. discriminate H.
  - destruct (always_safe c); reflexivity.
Qed.

(** Both branches of [quote_plus] encode character by character. *)
Lemma quote_plus_form_encode s : quote_plus s = form_encode s.
Proof.
  unfold quote_plus. destruct (str_contains " " s) eqn:H.
  - apply quote_keeping_space.
  - apply quote_without_space, H.
Qed.

Lemma str_forall_app p s t :
  str_forall p (s ++ t) = str_forall p s && str_forall p t.
Proof.
  induction s as [|c s IH]; cbn; [reflexivity|].
  rewrite IH, andb_assoc. reflexivity.
Qed.

Lemma form_encode_chars s : str_forall encoded_char (form_encode s) = true.
Proof.
  induction s as [|c s IH]; cbn [form_encode]; [reflexivity|].
  rewrite str_forall_app, IH, andb_true_r. unfold form_encode_char.
  destruct (Ascii.eqb c " "); [reflexivity|].
  destruct (always_safe c) eqn:Hsafe; [|apply percent_utf8_encoded].
  cbn. unfold encoded_char. rewrite Hsafe. reflexivity.
Qed.

Lemma str_forall_excludes p c s :
  str_forall p s = true -> p c = false ->
  str_contains (String c EmptyString) s = false.
Proof.
  intros Hs Hc. induction s as [|x s IH]; [reflexivity|].
  cbn in Hs. apply andb_prop in Hs. destruct Hs as [Hx Hs].
  cbn. rewrite (IH Hs), orb_false_r.
  destruct (Ascii.eqb_spec c x) as [->|]; [congruence|reflexivity].
Qed.

Lemma calls_after_app l extra : calls_after (length l) (l ++ extra) = extra.
Proof.
  unfold calls_after. rewrite skipn_app, skipn_all, Nat.sub_diag. reflexivity.
Qed.

Lemma calls_after_self l : calls_after (length l) l = [].
Proof. unfold calls_after. apply skipn_all. Qed.

Section LogsUrl.

Variable env : Env.

(** Every [put_object] request of a run of [copy_logs] uses the key of
    [_get_logs_key]. *)
Lemma copy_logs_put_key s d s' li sn r s2 :
  _get_build_details env s = (Ok (VDict d), s') ->
  dict_get "logs" d = Some (VDict li) ->
  dict_get "streamName" li = Some (VStr sn) ->
  copy_logs env s = (r, s2) ->
  forall k body ct,
    In (PutObject k body ct) (calls_after (length (calls s')) (calls s2)) ->
    k = (sn ++ "/build.log")%string /\ ct = "text/plain".
Proof.
  intros H Hl Hs Hc k body ct.
  unfold copy_logs in Hc. rewrite (bind_Ok _ _ _ _ _ H) in Hc.
  unfold bind at 1 in Hc. unfold lift at 1 in Hc. cbn [py_getitem] in Hc.
  rewrite Hl in Hc.
  unfold bind at 1 in Hc. unfold lift at 1 in Hc. cbn [py_getitem ret] in Hc.
  destruct (dict_get "groupName" li) as [g|].
  2:{ cbn in Hc. inversion Hc; subst. rewrite calls_after_self. intros []. }
  unfold bind at 1 in Hc. unfold lift at 1 in Hc. cbn [py_getitem ret] in Hc.
  rewrite Hs in Hc.
  unfold bind at 1 in Hc. cbn [ret record] in Hc.
  unfold bind at 1 in Hc. unfold lift at 1 in Hc.
  destruct (let (pages, failure) := filter_log_events env g [VStr sn] in
            page_messages pages failure) as [msgs|e].
  2:{ cbn in Hc. inversion Hc; subst. cbn [calls]. rewrite calls_after_app.
      intros [Hin|[]]. discriminate Hin. }
  cbn [ret] in Hc.
  unfold bind at 1 in Hc. unfold lift at 1 in Hc.
  destruct (py_join msgs) as [content|e].
  2:{ cbn in Hc. inversion Hc; subst. cbn [calls]. rewrite calls_after_app.
      intros [Hin|[]]. discriminate Hin. }
  cbn [ret] in Hc.
  assert (Hk : _get_logs_key env
                 {| self := self s'; calls := calls s' ++ [FilterLogEvents g [VStr sn]] |}
               = (Ok (sn ++ "/build.log")%string,
                  {| self := self s';
                     calls := calls s' ++ [FilterLogEvents g [VStr sn]] |})).
  { eapply _get_logs_key_run with (sn := sn); eauto.
    apply _get_build_details_cached. cbn.
    eapply _get_build_details_stored; eauto. }
  rewrite (bind_Ok _ _ _ _ _ Hk) in Hc.
  unfold bind, record in Hc. cbn in Hc. rewrite <- app_assoc in Hc. cbn in Hc.
  assert (Hcalls : calls s2 = calls s' ++
                     [FilterLogEvents g [VStr sn];
                      PutObject (sn ++ "/build.log") content "text/plain"]).
  { destruct (put_object env (sn ++ "/build.log") content "text/plain");
      inversion Hc; reflexivity. }
  rewrite Hcalls, calls_after_app.
  intros [Hin|[Hin|[]]]; [discriminate Hin|]. inversion Hin. auto.
Qed.

(** C4: with build details whose log stream is the string [sn],
    [get_logs_url] returns the configured endpoint, then [?key=], then the
    encoded form of the storage key [sn/build.log].  The encoding works
    character by character: letters, digits and [_.-~] stay, the space
    becomes a plus sign, every other character (the slash among them)
    becomes [%XX] for each byte of its UTF-8 encoding, so the value holds
    neither a space nor a slash.  The key is the one of every [put_object]
    request [copy_logs] sends from the same state.  For the stream
    [my stream/1] the value is [my+stream%2F1%2Fbuild.log]. *)
Theorem get_logs_url_encodes_logs_key s d s' li sn :
  _get_build_details env s = (Ok (VDict d), s') ->
  dict_get "logs" d = Some (VDict li) ->
  dict_get "streamName" li = Some (VStr sn) ->
  let key := (sn ++ "/build.log")%string in
  get_logs_url env s =
  (Ok (BUILD_LOGS_API_ENDPOINT env ++ "?key=" ++ quote_plus key)%string, s') /\
  quote_plus key = form_encode key /\
  str_forall encoded_char (quote_plus key) = true /\
  str_contains " " (quote_plus key) = false /\
  str_contains "/" (quote_plus key) = false /\
  (forall r s2 k body ct,
      copy_logs env s = (r, s2) ->
      In (PutObject k body ct) (calls_after (length (calls s')) (calls s2)) ->
      k = key) /\
  (sn = "my stream/1" -> quote_plus key = "my+stream%2F1%2Fbuild.log").
Proof.
  intros H Hl Hs key.
  assert (Hchars : str_forall encoded_char (quote_plus key) = true)
    by (rewrite quote_plus_form_encode; apply form_encode_chars).
  repeat split.
  - unfold get_logs_url.
    rewrite (bind_Ok _ _ _ _ _ (_get_logs_key_run env _ _ _ _ _ H Hl Hs)).
    reflexivity.
  - apply quote_plus_form_encode.
  - exact Hchars.
  - apply (str_forall_excludes _ _ _ Hchars). reflexivity.
  - apply (str_forall_excludes _ _ _ Hchars). reflexivity.
  - intros r s2 k body ct Hc Hin.
    apply (copy_logs_put_key _ _ _ _ _ _ _ H Hl Hs Hc _ _ _ Hin).
  - intros ->. reflexivity.
Qed.

End LogsUrl.

Lemma get_logs_url_encodes_logs_key_witness :
  let env := sample_env (sample_details "pr/42") (Raise KeyError) in
  let s := fresh (sample_build "SUCCEEDED") in
  fst (get_logs_url env s)
  = Ok "https://logs.example/api?key=my+stream%2F1%2Fbuild.log".
Proof.
  intros env s.
  rewrite (proj1 (get_logs_url_encodes_logs_key env s _ _ _ "my stream/1"
                    eq_refl eq_refl eq_refl)).
  reflexivity.
Defined.

(** ** What a method may do to the state *)

Section Preservation.

Variable R : State -> State -> Prop.
Hypothesis R_refl : forall s, R s s.
Hypothesis R_trans : forall s1 s2 s3, R s1 s2 -> R s2 s3 -> R s1 s3.

Lemma preserves_ret {A} (a : A) : preserves R (ret a).
Proof. intros s. apply R_refl. Qed.

Lemma preserves_raise {A} e : preserves R (@raise A e).
Proof. intros s. apply R_refl. Qed.

Lemma preserves_lift {A} (r : result A) : preserves R (lift r).
Proof. destruct r; [apply preserves_ret|apply preserves_raise]. Qed.

Lemma preserves_get_self : preserves R get_self.
Proof. intros s. apply R_refl. Qed.

Lemma preserves_bind {A B} (m : M A) (k : A -> M B) :
  preserves R m -> (forall a, preserves R (k a)) -> preserves R (bind m k).
Proof.
  intros Hm Hk s. unfold bind. specialize (Hm s).
  destruct (m s) as [[a|e] s1]; cbn in *; [|exact Hm].
  eapply R_trans; [exact Hm|apply Hk].
Qed.

Lemma preserves_try_except_KeyError {A} (m : M A) :
  preserves R m -> preserves R (try_except_KeyError m).
Proof.
  intros Hm s. unfold try_except_KeyError. specialize (Hm s).
  destruct (m s) as [[a|[]] s1]; exact Hm.
Qed.

Lemma preserves_self_build_details : preserves R self_build_details.
Proof.
  apply preserves_bind; [apply preserves_get_self|].
  intros b. destruct (_build_details b); [apply preserves_ret|apply preserves_raise].
Qed.

Lemma preserves_next_filter f groups :
  (forall g, preserves R (f g)) -> preserves R (next_filter f groups).
Proof.
  intros Hf. induction groups as [|g groups IH]; cbn [next_filter].
  - apply preserves_ret.
  - apply preserves_bind; [apply Hf|].
    intros [|]; [apply preserves_ret|exact IH].
Qed.

End Preservation.

Lemma batch_step_refl s : batch_step s s.
Proof.
  split; [|auto]. exists []. rewrite app_nil_r. split; reflexivity.
Qed.

Lemma count_calls_app p l1 l2 :
  count_calls p (l1 ++ l2) = count_calls p l1 + count_calls p l2.
Proof. unfold count_calls. rewrite filter_app, length_app. reflexivity. Qed.

Lemma batch_step_trans s1 s2 s3 :
  batch_step s1 s2 -> batch_step s2 s3 -> batch_step s1 s3.
Proof.
  intros [(e1 & H1 & C1) D1] [(e2 & H2 & C2) D2]. split; [|auto].
  exists (e1 ++ e2). rewrite H2, H1, app_assoc, count_calls_app, C1, C2.
  split; reflexivity.
Qed.

Lemma batch_step_set_self (f : Build -> Build) :
  (forall b, _build_details b <> None -> _build_details (f b) <> None) ->
  preserves batch_step (b <- get_self ;; set_self (f b)).
Proof.
  intros Hf s. cbn. split; [|apply Hf].
  exists []. rewrite app_nil_r. split; reflexivity.
Qed.

Lemma batch_step_record c :
  is_BatchGetBuilds c = false -> preserves batch_step (record c).
Proof.
  intros Hc s. cbn. split; [|auto].
  exists [c]. split; [reflexivity|]. unfold count_calls. cbn. rewrite Hc.
  reflexivity.
Qed.

Lemma batch_step_bind {A B} (m : M A) (k : A -> M B) :
  preserves batch_step m -> (forall a, preserves batch_step (k a)) ->
  preserves batch_step (bind m k).
Proof. apply preserves_bind. exact batch_step_trans. Qed.

Lemma batch_step_lift {A} (r : result A) : preserves batch_step (lift r).
Proof. apply preserves_lift, batch_step_refl. Qed.

Lemma batch_step_ret {A} (a : A) : preserves batch_step (ret a).
Proof. apply preserves_ret, batch_step_refl. Qed.

Lemma batch_step_self_build_details : preserves batch_step self_build_details.
Proof.
  apply preserves_self_build_details;
    [apply batch_step_refl|apply batch_step_trans].
Qed.

Ltac batch_steps :=
  repeat first
    [ apply batch_step_ret
    | apply batch_step_lift
    | apply batch_step_self_build_details
    | apply preserves_try_except_KeyError
    | apply batch_step_record; reflexivity
    | apply batch_step_set_self; cbn; congruence
    | apply batch_step_bind; [|intros ?]
    | match goal with
      | |- preserves _ (if ?c then _ else _) => destruct c
      | |- preserves _ (match ?x with Some _ => _ | None => _ end) => destruct x
      end ].

Section Once.

Variable env : Env.

Lemma batch_step_iterator_callback g :
  preserves batch_step (iterator_callback g).
Proof. unfold iterator_callback. batch_steps. Qed.

Lemma batch_step__process_batch : preserves batch_step (_process_batch env).
Proof.
  unfold _process_batch, set_build_details, set_group_identifier, set_status.
  batch_steps.
  apply preserves_next_filter;
    [apply batch_step_refl|apply batch_step_trans|apply batch_step_iterator_callback].
Qed.

End Once.

(** ** Memoisation of the build details *)

Lemma __init___attributes ev b :
  __init__ ev = Ok b ->
  exists detail,
    py_getitem ev "detail" = Ok detail /\
    py_getitem detail "build-id" = Ok (id b) /\
    py_getitem detail "project-name" = Ok (project_name b) /\
    py_getitem detail "build-status" = Ok (status b) /\
    group_identifier b = VNone /\ _build_details b = None.
Proof.
  unfold __init__.
  destruct (py_getitem ev "detail") as [detail|]; [|discriminate].
  destruct (py_getitem detail "build-id") as [bid|] eqn:E1; [|discriminate].
  destruct (py_getitem detail "project-name") as [pn|] eqn:E2; [|discriminate].
  destruct (py_getitem detail "build-status") as [st|] eqn:E3; [|discriminate].
  intros H. inversion H. subst b. cbn. exists detail. repeat split; auto.
Qed.

Section FetchedOnce.

Variable env : Env.

Lemma _get_build_details_fetch s response builds first :
  _build_details (self s) = None ->
  batch_get_builds env [id (self s)] = Ok response ->
  py_getitem response "builds" = Ok builds ->
  py_index builds 0 = Ok first ->
  _get_build_details env s =
  bind (_process_batch env) (fun _ => self_build_details) (stored s first).
Proof.
  intros Hn Hr Hb Hf. unfold _get_build_details.
  unfold bind at 1. unfold get_self at 1. rewrite Hn.
  unfold bind at 1. cbn [record self calls].
  unfold bind at 1. rewrite Hr. cbn [lift ret].
  unfold bind at 1. rewrite Hb. cbn [lift ret].
  unfold bind at 1. rewrite Hf. cbn [lift ret].
  unfold bind at 1. reflexivity.
Qed.

(** The first call amounts to batch resolution on the stored result,
    followed by a read of the attribute, which is still there. *)
Lemma _get_build_details_first s response builds first :
  _build_details (self s) = None ->
  batch_get_builds env [id (self s)] = Ok response ->
  py_getitem response "builds" = Ok builds ->
  py_index builds 0 = Ok first ->
  let run := _process_batch env (stored s first) in
  exists d,
    _build_details (self (snd run)) = Some d /\
    _get_build_details env s =
    (match fst run with
     | Ok _ => Ok d
     | Raise e => Raise e
     end, snd run).
Proof.
  intros Hn Hr Hb Hf run.
  pose proof (batch_step__process_batch env (stored s first)) as [_ Hkeep].
  fold run in Hkeep.
  destruct (_build_details (self (snd run))) as [d|] eqn:Hd;
    [|exfalso; apply Hkeep; [discriminate|reflexivity]].
  exists d. split; [reflexivity|].
  rewrite (_get_build_details_fetch _ _ _ _ Hn Hr Hb Hf). unfold bind.
  fold run. destruct run as [[u|e] s2]; cbn [fst snd] in *; [|reflexivity].
  apply self_build_details_Some, Hd.
Qed.

End FetchedOnce.

(** ** Batch resolution *)

Lemma dict_get_set_same k v d : dict_get k (dict_set k v d) = Some v.
Proof.
  induction d as [|[k' v'] d IH]; cbn.
  - rewrite String.eqb_refl. reflexivity.
  - destruct (String.eqb k k') eqn:E; cbn.
    + rewrite String.eqb_refl. reflexivity.
    + rewrite E. exact IH.
Qed.

Lemma dict_get_set_other k k' v d :
  k <> k' -> dict_get k (dict_set k' v d) = dict_get k d.
Proof.
  intros Hne. apply String.eqb_neq in Hne.
  induction d as [|[k0 v0] d IH]; cbn.
  - rewrite Hne. reflexivity.
  - destruct (String.eqb k' k0) eqn:E; cbn.
    + apply String.eqb_eq in E. subst k0. rewrite Hne. reflexivity.
    + rewrite IH. reflexivity.
Qed.

Lemma details_kept_refl s : details_kept s s.
Proof. reflexivity. Qed.

Lemma details_kept_trans s1 s2 s3 :
  details_kept s1 s2 -> details_kept s2 s3 -> details_kept s1 s3.
Proof. unfold details_kept. congruence. Qed.

Lemma details_kept_record c : preserves details_kept (record c).
Proof. intros s. reflexivity. Qed.

Lemma details_kept_set_self (f : Build -> Build) :
  (forall b, _build_details (f b) = _build_details b) ->
  preserves details_kept (b <- get_self ;; set_self (f b)).
Proof. intros Hf s. cbn. unfold details_kept. cbn. apply Hf. Qed.

(** Walks through a method and leaves the goals its primitive steps raise
    to [leaf]. *)
Ltac preserve_steps refl trans leaf :=
  repeat first
    [ apply (preserves_ret _ refl)
    | apply (preserves_lift _ refl)
    | apply (preserves_self_build_details _ refl trans)
    | apply preserves_try_except_KeyError
    | apply (preserves_next_filter _ refl trans); intros ?
    | leaf
    | apply (preserves_bind _ trans); [|intros ?]
    | progress unfold iterator_callback, set_group_identifier, set_status
    | match goal with
      | |- preserves _ (if ?c then _ else _) => destruct c
      | |- preserves _ (match ?x with Some _ => _ | None => _ end) => destruct x
      end ].

Ltac details_leaf :=
  first [ apply details_kept_record
        | apply details_kept_set_self; reflexivity ].

Section Batch.

Variable env : Env.

(** The inner function only reads. *)
Lemma iterator_callback_run s d a g :
  _build_details (self s) = Some (VDict d) ->
  dict_get "arn" d = Some a ->
  is_group g ->
  iterator_callback g s = (Ok (group_of a g), s).
Proof.
  intros Hd Ha (gd & -> & Hs). unfold iterator_callback, group_of, summary_arn.
  rewrite bind_lift. cbn [py_in py_getitem]. unfold dict_has.
  destruct Hs as [Hs|[sd Hs]]; rewrite Hs; cbn [negb]; [reflexivity|].
  rewrite bind_lift, bind_lift. cbn [py_in]. unfold dict_has.
  destruct (dict_get "arn" sd) as [ga|] eqn:Hga; cbn [negb]; [|reflexivity].
  rewrite bind_lift, bind_lift. cbn [py_getitem]. rewrite Hga.
  rewrite (bind_self_build_details _ _ _ Hd), bind_lift. cbn [py_getitem].
  rewrite Ha. reflexivity.
Qed.

Lemma next_filter_none s d a groups :
  _build_details (self s) = Some (VDict d) ->
  dict_get "arn" d = Some a ->
  Forall is_group groups ->
  Forall (fun g => group_of a g = false) groups ->
  next_filter iterator_callback groups s = (Ok None, s).
Proof.
  intros Hd Ha Hg Hn. induction groups as [|g groups IH]; cbn [next_filter].
  - reflexivity.
  - inversion Hg; subst. inversion Hn; subst.
    rewrite (bind_Ok _ _ _ _ _ (iterator_callback_run _ _ _ _ Hd Ha H1)).
    rewrite H3. apply IH; assumption.
Qed.

Lemma next_filter_first s d a groups g :
  _build_details (self s) = Some (VDict d) ->
  dict_get "arn" d = Some a ->
  first_group_of a groups g ->
  next_filter iterator_callback groups s = (Ok (Some g), s).
Proof.
  intros Hd Ha (before & after & -> & Hg & Hn & Hgg & Hm).
  induction before as [|g0 before IH]; cbn [next_filter app].
  - rewrite (bind_Ok _ _ _ _ _ (iterator_callback_run _ _ _ _ Hd Ha Hgg)).
    rewrite Hm. reflexivity.
  - inversion Hg; subst. inversion Hn; subst.
    rewrite (bind_Ok _ _ _ _ _ (iterator_callback_run _ _ _ _ Hd Ha H1)).
    rewrite H3. apply IH; assumption.
Qed.

(** A build that belongs to no batch: nothing happens. *)
Lemma _process_batch_no_batch s d :
  _build_details (self s) = Some (VDict d) ->
  dict_get "buildBatchArn" d = None ->
  _process_batch env s = (Ok tt, s).
Proof.
  intros Hd Hb. unfold _process_batch.
  rewrite (bind_self_build_details _ _ _ Hd), bind_lift.
  cbn [py_in]. unfold dict_has. rewrite Hb. reflexivity.
Qed.

(** Up to the end of the [try] statement. *)
Ltac enter_batch Hd Hb Hid :=
  unfold _process_batch;
  rewrite (bind_self_build_details _ _ _ Hd), bind_lift;
  cbn [py_in]; unfold dict_has; rewrite Hb; cbn [negb];
  rewrite bind_try_except_KeyError;
  rewrite (bind_self_build_details _ _ _ Hd), bind_lift;
  cbn [py_getitem]; rewrite Hb;
  rewrite bind_lift; cbn [py_split];
  rewrite bind_lift, Hid, bind_record.

Lemma _process_batch_not_fetched s d batch_arn batch_id e :
  _build_details (self s) = Some (VDict d) ->
  dict_get "buildBatchArn" d = Some (VStr batch_arn) ->
  list_index (str_split "/" batch_arn) 1 = Ok batch_id ->
  fetched_batch env batch_id = Raise e ->
  _process_batch env s =
  (match e with KeyError => Ok tt | _ => Raise e end, requested s batch_id).
Proof.
  intros Hd Hb Hid Hf. enter_batch Hd Hb Hid.
  unfold fetched_batch in Hf. rewrite bind_lift.
  destruct (batch_get_build_batches env [VStr batch_id]) as [response|e'].
  - rewrite bind_lift.
    destruct (py_getitem response "buildBatches") as [batches|e'].
    + unfold lift. rewrite Hf. destruct e; reflexivity.
    + inversion Hf. subst e'. destruct e; reflexivity.
  - inversion Hf. subst e'. destruct e; reflexivity.
Qed.

(** From the end of the [try] statement on, with a batch in hand. *)
Ltac enter_fetched Hd Hb Hid Hf :=
  enter_batch Hd Hb Hid;
  unfold fetched_batch in Hf; rewrite bind_lift;
  destruct (batch_get_build_batches _ _) as [?response|?]; [|discriminate Hf];
  rewrite bind_lift;
  destruct (py_getitem _ "buildBatches") as [?batches|?]; [|discriminate Hf];
  unfold lift at 1; rewrite Hf; cbn [ret].

Lemma _process_batch_no_sourceVersion s d batch_arn batch_id b :
  _build_details (self s) = Some (VDict d) ->
  dict_get "buildBatchArn" d = Some (VStr batch_arn) ->
  list_index (str_split "/" batch_arn) 1 = Ok batch_id ->
  fetched_batch env batch_id = Ok (VDict b) ->
  dict_get "sourceVersion" b = None ->
  _process_batch env s = (Ok tt, requested s batch_id).
Proof.
  intros Hd Hb Hid Hf Hv. enter_fetched Hd Hb Hid Hf.
  rewrite bind_lift. cbn [py_in]. unfold dict_has. rewrite Hv. reflexivity.
Qed.

(** Up to the assignment to [sourceVersion], included. *)
Ltac enter_versioned Hd Hb Hid Hf Hv :=
  enter_fetched Hd Hb Hid Hf;
  rewrite bind_lift; cbn [py_in]; unfold dict_has; rewrite Hv; cbn [negb];
  rewrite bind_lift; cbn [py_getitem]; rewrite ?Hv;
  erewrite bind_self_build_details by exact Hd;
  rewrite bind_lift; cbn [py_setitem];
  rewrite bind_set_build_details; cbn [self calls];
  match goal with
  | |- context [{| self := with_build_details _ (VDict (dict_set _ ?v ?d));
                   calls := calls ?s ++ [BatchGetBuildBatches [VStr ?i]] |}] =>
      change {| self := with_build_details (self s) (VDict (dict_set "sourceVersion" v d));
                calls := calls s ++ [BatchGetBuildBatches [VStr i]] |}
        with (versioned s i d v)
  end.

(** Whatever follows the assignment to [sourceVersion], the build details
    stay as the assignment left them. *)
Lemma _process_batch_sourceVersion s d batch_arn batch_id b v :
  _build_details (self s) = Some (VDict d) ->
  dict_get "buildBatchArn" d = Some (VStr batch_arn) ->
  list_index (str_split "/" batch_arn) 1 = Ok batch_id ->
  fetched_batch env batch_id = Ok (VDict b) ->
  dict_get "sourceVersion" b = Some v ->
  _build_details (self (snd (_process_batch env s)))
  = Some (VDict (dict_set "sourceVersion" v d)).
Proof.
  intros Hd Hb Hid Hf Hv. enter_versioned Hd Hb Hid Hf Hv.
  match goal with
  | |- _build_details (self (snd (?m ?st))) = _ =>
      assert (Hk : preserves details_kept m)
  end.
  { preserve_steps details_kept_refl details_kept_trans details_leaf. }
  rewrite (Hk _). reflexivity.
Qed.

Lemma _process_batch_no_buildGroups s d batch_arn batch_id b v :
  _build_details (self s) = Some (VDict d) ->
  dict_get "buildBatchArn" d = Some (VStr batch_arn) ->
  list_index (str_split "/" batch_arn) 1 = Ok batch_id ->
  fetched_batch env batch_id = Ok (VDict b) ->
  dict_get "sourceVersion" b = Some v ->
  dict_get "buildGroups" b = None ->
  _process_batch env s = (Ok tt, versioned s batch_id d v).
Proof.
  intros Hd Hb Hid Hf Hv Hg. enter_versioned Hd Hb Hid Hf Hv.
  rewrite bind_lift. cbn [py_in]. unfold dict_has. rewrite Hg. reflexivity.
Qed.

(** Up to the search among the groups, excluded. *)
Ltac enter_groups Hd Hb Hid Hf Hv Hg :=
  enter_versioned Hd Hb Hid Hf Hv;
  rewrite bind_lift; cbn [py_in]; unfold dict_has; rewrite Hg; cbn [negb];
  rewrite bind_lift; cbn [py_getitem]; rewrite ?Hg;
  rewrite bind_lift; cbn [py_iter].

Lemma versioned_details s batch_id d v :
  _build_details (self (versioned s batch_id d v))
  = Some (VDict (dict_set "sourceVersion" v d)).
Proof. reflexivity. Qed.

Lemma versioned_arn d v a :
  dict_get "arn" d = Some a ->
  dict_get "arn" (dict_set "sourceVersion" v d) = Some a.
Proof. intros <-. apply dict_get_set_other. discriminate. Qed.

Lemma _process_batch_no_group s d batch_arn batch_id b v groups a :
  _build_details (self s) = Some (VDict d) ->
  dict_get "buildBatchArn" d = Some (VStr batch_arn) ->
  list_index (str_split "/" batch_arn) 1 = Ok batch_id ->
  fetched_batch env batch_id = Ok (VDict b) ->
  dict_get "sourceVersion" b = Some v ->
  dict_get "buildGroups" b = Some (VList groups) ->
  dict_get "arn" d = Some a ->
  Forall is_group groups ->
  Forall (fun g => group_of a g = false) groups ->
  _process_batch env s = (Ok tt, versioned s batch_id d v).
Proof.
  intros Hd Hb Hid Hf Hv Hg Ha Hgs Hno. enter_groups Hd Hb Hid Hf Hv Hg.
  rewrite (bind_Ok _ _ _ _ _
             (next_filter_none _ _ _ _ (versioned_details _ _ _ _)
                (versioned_arn _ v _ Ha) Hgs Hno)).
  reflexivity.
Qed.

Lemma group_of_summary a gd :
  group_of a (VDict gd) = true ->
  exists sd, dict_get "currentBuildSummary" gd = Some (VDict sd).
Proof.
  unfold group_of, summary_arn.
  destruct (dict_get "currentBuildSummary" gd) as [[| | | | |sd]|];
    try discriminate; eauto.
Qed.

(** The outcome once the first group of the build is known. *)
Lemma _process_batch_group s d batch_arn batch_id b v groups a gd sd :
  _build_details (self s) = Some (VDict d) ->
  dict_get "buildBatchArn" d = Some (VStr batch_arn) ->
  list_index (str_split "/" batch_arn) 1 = Ok batch_id ->
  fetched_batch env batch_id = Ok (VDict b) ->
  dict_get "sourceVersion" b = Some v ->
  dict_get "buildGroups" b = Some (VList groups) ->
  dict_get "arn" d = Some a ->
  first_group_of a groups (VDict gd) ->
  dict_get "currentBuildSummary" gd = Some sd ->
  _process_batch env s =
  match dict_get "identifier" gd with
  | None => (Ok tt, versioned s batch_id d v)
  | Some identifier =>
      match py_getitem sd "buildStatus" with
      | Ok item_status =>
          (Ok tt, resolved (versioned s batch_id d v) identifier item_status)
      | Raise e => (Raise e, identified (versioned s batch_id d v) identifier)
      end
  end.
Proof.
  intros Hd Hb Hid Hf Hv Hg Ha Hfirst Hsd. enter_groups Hd Hb Hid Hf Hv Hg.
  rewrite (bind_Ok _ _ _ _ _
             (next_filter_first _ _ _ _ _ (versioned_details _ _ _ _)
                (versioned_arn _ v _ Ha) Hfirst)).
  rewrite bind_lift. cbn [py_in]. unfold dict_has.
  destruct (dict_get "identifier" gd) as [identifier|] eqn:Hi; cbn [negb];
    [|reflexivity].
  rewrite bind_lift. cbn [py_getitem]. rewrite Hi.
  rewrite bind_set_group_identifier, bind_lift. rewrite Hsd.
  rewrite bind_lift.
  destruct (py_getitem sd "buildStatus") as [item_status|e]; reflexivity.
Qed.

Lemma untouched_refl s : untouched s s.
Proof. reflexivity. Qed.

Lemma untouched_trans s1 s2 s3 :
  untouched s1 s2 -> untouched s2 s3 -> untouched s1 s3.
Proof. unfold untouched. congruence. Qed.

(** The search among the groups changes nothing, whatever the groups. *)
Lemma next_filter_untouched groups :
  preserves untouched (next_filter iterator_callback groups).
Proof.
  preserve_steps untouched_refl untouched_trans fail.
Qed.

Lemma bind_untouched {A B} (m : M A) (k : A -> M B) s :
  preserves untouched m ->
  bind m k s =
  match fst (m s) with
  | Ok a => k a s
  | Raise e => (Raise e, s)
  end.
Proof.
  intros Hm. unfold bind. specialize (Hm s). unfold untouched in Hm.
  destruct (m s) as [[a|e] s1]; cbn in *; subst; reflexivity.
Qed.

(** The request for the batch and the two lookups in its answer. *)
Lemma batch_request_run batch_id st :
  (response <- lift (batch_get_build_batches env [VStr batch_id]) ;;
   batches <- lift (py_getitem response "buildBatches") ;;
   lift (py_index batches 0)) st
  = (fetched_batch env batch_id, st).
Proof.
  unfold fetched_batch. rewrite bind_lift.
  destruct (batch_get_build_batches env [VStr batch_id]); [|reflexivity].
  rewrite bind_lift. destruct (py_getitem a "buildBatches"); [|reflexivity].
  unfold lift. destruct (py_index a0 0); reflexivity.
Qed.

Lemma calls_kept_refl s : calls_kept s s.
Proof. reflexivity. Qed.

Lemma calls_kept_trans s1 s2 s3 :
  calls_kept s1 s2 -> calls_kept s2 s3 -> calls_kept s1 s3.
Proof. unfold calls_kept. congruence. Qed.

Lemma calls_kept_set_self (f : Build -> Build) :
  preserves calls_kept (b <- get_self ;; set_self (f b)).
Proof. intros s. reflexivity. Qed.

Ltac calls_leaf :=
  first [ apply calls_kept_set_self
        | unfold set_build_details; apply calls_kept_set_self ].

(** A build of a batch whose arn has a second segment: one request is sent,
    for that segment, whatever the answer and whatever follows. *)
Lemma _process_batch_calls s d batch_arn batch_id :
  _build_details (self s) = Some (VDict d) ->
  dict_get "buildBatchArn" d = Some (VStr batch_arn) ->
  list_index (str_split "/" batch_arn) 1 = Ok batch_id ->
  calls (snd (_process_batch env s))
  = calls s ++ [BatchGetBuildBatches [VStr batch_id]].
Proof.
  intros Hd Hb Hid. enter_batch Hd Hb Hid.
  rewrite batch_request_run.
  destruct (fetched_batch env batch_id) as [batch|[]]; try reflexivity.
  match goal with
  | |- calls (snd (?m ?st)) = _ => assert (Hk : preserves calls_kept m)
  end.
  { preserve_steps calls_kept_refl calls_kept_trans calls_leaf. }
  rewrite (Hk _). reflexivity.
Qed.

(** No second segment: the lookup fails before anything is sent. *)
Lemma _process_batch_no_segment s d batch_arn :
  _build_details (self s) = Some (VDict d) ->
  dict_get "buildBatchArn" d = Some (VStr batch_arn) ->
  list_index (str_split "/" batch_arn) 1 = Raise IndexError ->
  _process_batch env s = (Raise IndexError, s).
Proof.
  intros Hd Hb Hid. unfold _process_batch.
  rewrite (bind_self_build_details _ _ _ Hd), bind_lift.
  cbn [py_in]. unfold dict_has. rewrite Hb. cbn [negb].
  rewrite bind_try_except_KeyError.
  rewrite (bind_self_build_details _ _ _ Hd), bind_lift.
  cbn [py_getitem]. rewrite Hb.
  rewrite bind_lift. cbn [py_split].
  rewrite bind_lift, Hid. reflexivity.
Qed.

Lemma bind_set_status_end v s :
  set_status v s = (Ok tt, {| self := with_status (self s) v; calls := calls s |}).
Proof. reflexivity. Qed.

Lemma next_filter_In f groups s g s' :
  next_filter f groups s = (Ok (Some g), s') -> In g groups.
Proof.
  revert s. induction groups as [|g0 groups IH]; intros s; cbn [next_filter].
  - intros H. inversion H.
  - unfold bind. destruct (f g0 s) as [[[|]|e] s1].
    + intros H. inversion H. left. reflexivity.
    + intros H. right. apply (IH _ H).
    + discriminate.
Qed.

(** Whatever the details, the answers of the service and the groups are,
    batch resolution changes the instance in one of four ways, with values
    it takes from the batch. *)
Lemma _process_batch_effect s :
  batch_effect env (self s) (self (snd (_process_batch env s))).
Proof.
  unfold _process_batch.
  destruct (_build_details (self s)) as [dv|] eqn:Hd.
  2:{ unfold bind at 1. unfold self_build_details, bind, get_self.
      rewrite Hd. left. reflexivity. }
  rewrite (bind_self_build_details _ _ _ Hd), bind_lift.
  destruct (py_in "buildBatchArn" dv) as [[|]|]; cbn [negb];
    try (left; reflexivity).
  rewrite bind_try_except_KeyError.
  rewrite (bind_self_build_details _ _ _ Hd), bind_lift.
  destruct (py_getitem dv "buildBatchArn") as [batch_arn|[]] eqn:Harn;
    try (left; reflexivity).
  destruct dv as [| | | | |d]; try discriminate Harn.
  rewrite bind_lift.
  destruct (py_split batch_arn "/") as [parts|[]] eqn:Hsplit;
    try (left; reflexivity).
  destruct batch_arn as [| | |arn| |]; try discriminate Hsplit.
  cbn [py_split] in Hsplit. inversion Hsplit. subst parts. clear Hsplit.
  assert (Harn' : dict_get "buildBatchArn" d = Some (VStr arn)).
  { cbn [py_getitem] in Harn.
    destruct (dict_get "buildBatchArn" d); inversion Harn. reflexivity. }
  rewrite bind_lift.
  destruct (list_index (str_split "/" arn) 1) as [batch_id|[]] eqn:Hid;
    try (left; reflexivity).
  rewrite bind_record, batch_request_run.
  destruct (fetched_batch env batch_id) as [batch|[]] eqn:Hf;
    try (left; reflexivity).
  rewrite bind_lift.
  destruct (py_in "sourceVersion" batch) as [[|]|]; cbn [negb];
    try (left; reflexivity).
  rewrite bind_lift.
  destruct (py_getitem batch "sourceVersion") as [v|] eqn:Hv;
    [|left; reflexivity].
  erewrite bind_self_build_details by exact Hd.
  rewrite bind_lift.
  cbn [py_setitem]. rewrite bind_set_build_details. cbn [self calls].
  assert (Hwritten :
            forall b',
              (let bv := with_build_details (self s)
                           (VDict (dict_set "sourceVersion" v d)) in
               b' = bv \/
               exists listed groups group identifier,
                 py_getitem batch "buildGroups" = Ok listed /\
                 py_iter listed = Ok groups /\
                 In group groups /\
                 py_getitem group "identifier" = Ok identifier /\
                 (b' = with_group_identifier bv identifier \/
                  exists summary item_status,
                    py_getitem group "currentBuildSummary" = Ok summary /\
                    py_getitem summary "buildStatus" = Ok item_status /\
                    b' = with_status (with_group_identifier bv identifier)
                                     item_status)) ->
              batch_effect env (self s) b').
  { intros b' Hb'. right. exists d, arn, batch_id, batch, v.
    do 5 (split; [assumption|]). exact Hb'. }
  apply Hwritten. clear Hwritten. cbn zeta.
  rewrite bind_lift.
  destruct (py_in "buildGroups" batch) as [[|]|]; cbn [negb];
    try (left; reflexivity).
  rewrite bind_lift.
  destruct (py_getitem batch "buildGroups") as [listed|] eqn:Hl;
    [|left; reflexivity].
  rewrite bind_lift.
  destruct (py_iter listed) as [groups|] eqn:Hit; [|left; reflexivity].
  rewrite (bind_untouched _ _ _ (next_filter_untouched groups)).
  match goal with
  | |- context [next_filter iterator_callback groups ?st] =>
      destruct (next_filter iterator_callback groups st)
        as [[[group|]|e] sf] eqn:Hnf
  end; cbn [fst]; try (left; reflexivity).
  apply next_filter_In in Hnf.
  rewrite bind_lift.
  destruct (py_in "identifier" group) as [[|]|]; cbn [negb];
    try (left; reflexivity).
  rewrite bind_lift.
  destruct (py_getitem group "identifier") as [identifier|] eqn:Hi;
    [|left; reflexivity].
  rewrite bind_set_group_identifier. cbn [self calls].
  right. exists listed, groups, group, identifier.
  do 4 (split; [first [assumption|reflexivity]|]).
  rewrite bind_lift.
  destruct (py_getitem group "currentBuildSummary") as [summary|] eqn:Hsum;
    [|left; reflexivity].
  rewrite bind_lift.
  destruct (py_getitem summary "buildStatus") as [item_status|] eqn:Hst;
    [|left; reflexivity].
  right. exists summary, item_status. repeat split; assumption.
Qed.

(** Whatever the details are, at most one request goes out, and it asks
    for a batch. *)
Lemma _process_batch_at_most_one_request s :
  calls (snd (_process_batch env s)) = calls s \/
  exists batch_id,
    calls (snd (_process_batch env s))
    = calls s ++ [BatchGetBuildBatches [VStr batch_id]].
Proof.
  unfold _process_batch.
  destruct (_build_details (self s)) as [dv|] eqn:Hd.
  2:{ unfold bind at 1. unfold self_build_details, bind, get_self.
      rewrite Hd. left. reflexivity. }
  rewrite (bind_self_build_details _ _ _ Hd), bind_lift.
  destruct (py_in "buildBatchArn" dv) as [[|]|]; cbn [negb];
    try (left; reflexivity).
  rewrite bind_try_except_KeyError.
  rewrite (bind_self_build_details _ _ _ Hd), bind_lift.
  destruct (py_getitem dv "buildBatchArn") as [batch_arn|[]];
    try (left; reflexivity).
  rewrite bind_lift.
  destruct (py_split batch_arn "/") as [parts|[]]; try (left; reflexivity).
  rewrite bind_lift.
  destruct (list_index parts 1) as [batch_id|[]]; try (left; reflexivity).
  rewrite bind_record, batch_request_run.
  right. exists batch_id.
  destruct (fetched_batch env batch_id) as [batch|[]]; try reflexivity.
  match goal with
  | |- calls (snd (?m ?st)) = _ => assert (Hk : preserves calls_kept m)
  end.
  { preserve_steps calls_kept_refl calls_kept_trans calls_leaf. }
  rewrite (Hk _). reflexivity.
Qed.

(** What the inner function answers on a group record, arn or no arn in
    the build details. *)
Lemma iterator_callback_outcome s d g :
  _build_details (self s) = Some (VDict d) ->
  is_group g ->
  iterator_callback g s =
  (match summary_arn g with
   | None => Ok false
   | Some group_arn =>
       match dict_get "arn" d with
       | Some a => Ok (py_eq group_arn a)
       | None => Raise KeyError
       end
   end, s).
Proof.
  intros Hd (gd & -> & Hs). unfold iterator_callback, summary_arn.
  rewrite bind_lift. cbn [py_in py_getitem]. unfold dict_has.
  destruct Hs as [Hs|[sd Hs]]; rewrite Hs; cbn [negb]; [reflexivity|].
  rewrite bind_lift, bind_lift. cbn [py_in]. unfold dict_has.
  destruct (dict_get "arn" sd) as [ga|] eqn:Hga; cbn [negb]; [|reflexivity].
  rewrite bind_lift, bind_lift. cbn [py_getitem]. rewrite Hga.
  rewrite (bind_self_build_details _ _ _ Hd), bind_lift. cbn [py_getitem].
  destruct (dict_get "arn" d); reflexivity.
Qed.

Lemma next_filter_missing_arn s d before g after :
  _build_details (self s) = Some (VDict d) ->
  dict_get "arn" d = None ->
  Forall is_group before ->
  Forall (fun g' => summary_arn g' = None) before ->
  is_group g ->
  summary_arn g <> None ->
  next_filter iterator_callback (before ++ g :: after) s = (Raise KeyError, s).
Proof.
  intros Hd Ha Hg Hn Hgg Harn.
  induction before as [|g0 before IH]; cbn [next_filter app].
  - unfold bind. rewrite (iterator_callback_outcome _ _ _ Hd Hgg), Ha.
    destruct (summary_arn g); [reflexivity|contradiction].
  - inversion Hg; subst. inversion Hn; subst.
    unfold bind at 1. rewrite (iterator_callback_outcome _ _ _ Hd H1), H3.
    apply IH; assumption.
Qed.

Lemma versioned_no_arn d v :
  dict_get "arn" d = None ->
  dict_get "arn" (dict_set "sourceVersion" v d) = None.
Proof. intros <-. apply dict_get_set_other. discriminate. Qed.

(** Build details without an arn: the comparison raises at the first group
    that has one, after the [sourceVersion] has been written. *)
Lemma _process_batch_missing_arn s d batch_arn batch_id b v before g after :
  _build_details (self s) = Some (VDict d) ->
  dict_get "buildBatchArn" d = Some (VStr batch_arn) ->
  list_index (str_split "/" batch_arn) 1 = Ok batch_id ->
  fetched_batch env batch_id = Ok (VDict b) ->
  dict_get "sourceVersion" b = Some v ->
  dict_get "buildGroups" b = Some (VList (before ++ g :: after)) ->
  dict_get "arn" d = None ->
  Forall is_group before ->
  Forall (fun g' => summary_arn g' = None) before ->
  is_group g ->
  summary_arn g <> None ->
  _process_batch env s = (Raise KeyError, versioned s batch_id d v).
Proof.
  intros Hd Hb Hid Hf Hv Hg Ha Hbef Hnone Hgg Harn.
  enter_groups Hd Hb Hid Hf Hv Hg.
  rewrite (bind_Raise _ _ _ _ _
             (next_filter_missing_arn _ _ _ _ after (versioned_details _ _ _ _)
                (versioned_no_arn _ v Ha) Hbef Hnone Hgg Harn)).
  reflexivity.
Qed.

End Batch.

(** ** Memoisation, with the requests of batch resolution *)

Section FetchedOnce.

Variable env : Env.

(** C6, as amended: when the attribute does not exist yet and the build
    service answers the query for the build id of the instance, the first
    call of [_get_build_details] sends that one query, stores the first
    result and runs batch resolution on it, which sends at most one request
    more to the same service: none for a build outside a batch, the request
    for the batch for an item of one.  From then on the attribute exists,
    every further call returns it and leaves the state, requests included,
    as it is.  So however many calls follow, the requests hold exactly one
    [batch_get_builds] more than before the first call, and at most two
    requests to the build service more. *)
Theorem build_details_fetched_once s response builds first :
  _build_details (self s) = None ->
  batch_get_builds env [id (self s)] = Ok response ->
  py_getitem response "builds" = Ok builds ->
  py_index builds 0 = Ok first ->
  let s1 := snd (_get_build_details env s) in
  s1 = snd (_process_batch env (stored s first)) /\
  (exists extra,
      calls s1 = calls s ++ BatchGetBuilds [id (self s)] :: extra /\
      count_calls is_BatchGetBuilds extra = 0 /\
      (extra = [] \/
       exists batch_id, extra = [BatchGetBuildBatches [VStr batch_id]]) /\
      (forall d,
          first = VDict d -> dict_get "buildBatchArn" d = None ->
          extra = []) /\
      (forall d batch_arn batch_id,
          first = VDict d ->
          dict_get "buildBatchArn" d = Some (VStr batch_arn) ->
          list_index (str_split "/" batch_arn) 1 = Ok batch_id ->
          extra = [BatchGetBuildBatches [VStr batch_id]])) /\
  exists d,
    _build_details (self s1) = Some d /\
    (forall v, fst (_get_build_details env s) = Ok v -> v = d) /\
    _get_build_details env s1 = (Ok d, s1) /\
    (forall n,
        let sn := Nat.iter n (fun st => snd (_get_build_details env st)) s1 in
        sn = s1 /\
        count_calls is_BatchGetBuilds (calls sn)
        = count_calls is_BatchGetBuilds (calls s) + 1 /\
        count_calls is_build_service_call (calls sn)
        <= count_calls is_build_service_call (calls s) + 2).
Proof.
  intros Hn Hr Hb Hf.
  pose proof (_process_batch_at_most_one_request env (stored s first)) as Hone.
  set (s1 := snd (_process_batch env (stored s first))) in *.
  destruct (_get_build_details_first env s _ _ _ Hn Hr Hb Hf) as (d & Hd & Hrun).
  fold s1 in Hd, Hrun.
  assert (Hextra : exists extra,
             calls s1 = calls s ++ BatchGetBuilds [id (self s)] :: extra /\
             (extra = [] \/
              exists batch_id, extra = [BatchGetBuildBatches [VStr batch_id]])).
  { destruct Hone as [Hc|[batch_id Hc]]; rewrite Hc; cbn [stored calls].
    - exists []. split; [reflexivity|]. left. reflexivity.
    - rewrite <- app_assoc. eexists. split; [reflexivity|].
      right. exists batch_id. reflexivity. }
  destruct Hextra as (extra & Hc & Hshape).
  rewrite Hrun. cbn [snd fst].
  split; [reflexivity|]. split.
  - exists extra. split; [exact Hc|].
    split; [destruct Hshape as [->|[batch_id ->]]; reflexivity|].
    split; [exact Hshape|]. split.
    + intros d0 -> Hnb.
      pose proof (_process_batch_no_batch env (stored s (VDict d0)) d0 eq_refl Hnb)
        as Hp.
      unfold s1 in Hc. rewrite Hp in Hc. cbn [snd stored calls] in Hc.
      apply app_inv_head in Hc. inversion Hc. reflexivity.
    + intros d0 batch_arn batch_id -> Harn Hseg.
      pose proof (_process_batch_calls env (stored s (VDict d0)) d0 _ _
                    eq_refl Harn Hseg) as Hp.
      fold s1 in Hp. rewrite Hp in Hc. cbn [stored calls] in Hc.
      rewrite <- app_assoc in Hc. apply app_inv_head in Hc.
      inversion Hc. reflexivity.
  - exists d. split; [exact Hd|]. split; [|split].
    + destruct (fst (_process_batch env (stored s first))); intros v Hv;
        inversion Hv; reflexivity.
    + apply _get_build_details_cached, Hd.
    + intros n. cbn zeta.
      assert (Hit : Nat.iter n (fun st => snd (_get_build_details env st)) s1 = s1).
      { induction n as [|n IH]; [reflexivity|].
        rewrite Nat.iter_succ, IH, (_get_build_details_cached env _ _ Hd).
        reflexivity. }
      rewrite Hit. split; [reflexivity|].
      rewrite Hc.
      change (BatchGetBuilds [id (self s)] :: extra)
        with ([BatchGetBuilds [id (self s)]] ++ extra).
      rewrite !count_calls_app.
      destruct Hshape as [->|[batch_id ->]]; cbn; lia.
Qed.

End FetchedOnce.

(** ** Detail resolution of a build that belongs to a batch *)

Section Resolution.

Variable env : Env.
Variable s : State.
Variables response builds : value.
Variable d : list (string * value).
Variables batch_arn batch_id : string.

(** The attribute does not exist yet, the build service answers with the
    details [d], and [d] names the batch of the build. *)
Hypothesis no_details : _build_details (self s) = None.
Hypothesis builds_response : batch_get_builds env [id (self s)] = Ok response.
Hypothesis builds_entry : py_getitem response "builds" = Ok builds.
Hypothesis first_build : py_index builds 0 = Ok (VDict d).
Hypothesis in_batch : dict_get "buildBatchArn" d = Some (VStr batch_arn).
Hypothesis second_segment : list_index (str_split "/" batch_arn) 1 = Ok batch_id.

Lemma stored_details :
  _build_details (self (stored s (VDict d))) = Some (VDict d).
Proof. reflexivity. Qed.

(** Detail resolution, given how batch resolution ends on the stored
    details. *)
Lemma resolution_run r s1 :
  _process_batch env (stored s (VDict d)) = (r, s1) ->
  exists d1,
    _build_details (self s1) = Some d1 /\
    _get_build_details env s =
    (match r with Ok _ => Ok d1 | Raise e => Raise e end, s1).
Proof.
  intros Hrun.
  destruct (_get_build_details_first env s _ _ _ no_details builds_response
              builds_entry first_build) as (d1 & Hd1 & Hget).
  rewrite Hrun in *. cbn [fst snd] in *. eauto.
Qed.

Lemma benign_run :
  benign env d batch_id ->
  exists s1,
    _process_batch env (stored s (VDict d)) = (Ok tt, s1) /\
    group_identifier (self s1) = group_identifier (self s) /\
    status (self s1) = status (self s).
Proof.
  pose proof stored_details as Hd.
  assert (Hdone : forall s1,
             _process_batch env (stored s (VDict d)) = (Ok tt, s1) ->
             group_identifier (self s1) = group_identifier (self s) ->
             status (self s1) = status (self s) ->
             exists s1,
               _process_batch env (stored s (VDict d)) = (Ok tt, s1) /\
               group_identifier (self s1) = group_identifier (self s) /\
               status (self s1) = status (self s)) by eauto.
  assert (Hnv : forall b,
             fetched_batch env batch_id = Ok (VDict b) ->
             dict_get "sourceVersion" b = None ->
             _process_batch env (stored s (VDict d))
             = (Ok tt, requested (stored s (VDict d)) batch_id)).
  { intros b Hf Hv.
    apply (_process_batch_no_sourceVersion env _ _ _ _ _ Hd in_batch
             second_segment Hf Hv). }
  intros [Hk|r Hr Hb|b Hf Hv|b Hf Hg|b groups a Hf Hg Ha Hgs Hno
         |b groups a gd Hf Hg Ha Hfirst Hi].
  - eapply Hdone;
      [apply (_process_batch_not_fetched env _ _ _ _ KeyError Hd in_batch
                second_segment);
       unfold fetched_batch; rewrite Hk; reflexivity
      |reflexivity|reflexivity].
  - eapply Hdone;
      [apply (_process_batch_not_fetched env _ _ _ _ KeyError Hd in_batch
                second_segment);
       unfold fetched_batch; rewrite Hr; cbn; rewrite Hb; reflexivity
      |reflexivity|reflexivity].
  - eapply Hdone; [apply (Hnv b Hf Hv)|reflexivity|reflexivity].
  - destruct (dict_get "sourceVersion" b) as [v|] eqn:Hv.
    + eapply Hdone;
        [apply (_process_batch_no_buildGroups env _ _ _ _ _ _ Hd in_batch
                  second_segment Hf Hv Hg)
        |reflexivity|reflexivity].
    + eapply Hdone; [apply (Hnv b Hf Hv)|reflexivity|reflexivity].
  - destruct (dict_get "sourceVersion" b) as [v|] eqn:Hv.
    + eapply Hdone;
        [apply (_process_batch_no_group env _ _ _ _ _ _ _ _ Hd in_batch
                  second_segment Hf Hv Hg Ha Hgs Hno)
        |reflexivity|reflexivity].
    + eapply Hdone; [apply (Hnv b Hf Hv)|reflexivity|reflexivity].
  - destruct (dict_get "sourceVersion" b) as [v|] eqn:Hv.
    + destruct (group_of_summary a gd) as [sd Hsd].
      { destruct Hfirst as (? & ? & _ & _ & _ & _ & Hm). exact Hm. }
      eapply Hdone;
        [rewrite (_process_batch_group env _ _ _ _ _ _ _ _ _ _ Hd in_batch
                    second_segment Hf Hv Hg Ha Hfirst Hsd);
         rewrite Hi; reflexivity
        |reflexivity|reflexivity].
    + eapply Hdone; [apply (Hnv b Hf Hv)|reflexivity|reflexivity].
Qed.

(** C1, as amended: for a build that is part of a batch, if the request for
    the batch raises KeyError or is answered without a [buildBatches] entry,
    or the batch lacks [sourceVersion] or [buildGroups], or no group carries
    the arn of the build, or the first group that does lacks an identifier,
    then detail resolution returns the build details and raises nothing,
    [group_identifier] is what it was and [status] is what it was; on an
    instance just constructed from an event these are [None] and the
    [build-status] of the event.  Any other exception the request for the
    batch raises comes out of detail resolution. *)
Theorem benign_batch_keeps_event_status :
  (benign env d batch_id ->
   exists d1 s1,
     _get_build_details env s = (Ok d1, s1) /\
     group_identifier (self s1) = group_identifier (self s) /\
     status (self s1) = status (self s) /\
     (forall ev,
         __init__ ev = Ok (self s) ->
         group_identifier (self s1) = VNone /\
         exists detail,
           py_getitem ev "detail" = Ok detail /\
           py_getitem detail "build-status" = Ok (status (self s1)))) /\
  (forall e,
      batch_get_build_batches env [VStr batch_id] = Raise e ->
      e <> KeyError ->
      fst (_get_build_details env s) = Raise e).
Proof.
  split.
  - intros Hbenign.
    destruct (benign_run Hbenign) as (s1 & Hrun & Hgid & Hst).
    destruct (resolution_run _ _ Hrun) as (d1 & _ & Hget).
    exists d1, s1. split; [exact Hget|]. split; [exact Hgid|].
    split; [exact Hst|].
    intros ev Hinit.
    destruct (__init___attributes _ _ Hinit)
      as (detail & Hdet & _ & _ & Hstat & Hnone & _).
    rewrite Hgid, Hst. eauto.
  - intros e He Hne.
    assert (Hf : fetched_batch env batch_id = Raise e)
      by (unfold fetched_batch; rewrite He; reflexivity).
    pose proof (_process_batch_not_fetched env _ _ _ _ e stored_details
                  in_batch second_segment Hf) as Hrun.
    destruct (resolution_run _ _ Hrun) as (d1 & _ & Hget).
    rewrite Hget. cbn [fst]. destruct e; try reflexivity. contradiction.
Qed.

(** C3: when the batch of the build has a [sourceVersion], batch resolution
    writes it over the [sourceVersion] of the cached build details and
    leaves every other entry alone, whatever the rest of the resolution
    does.  When that value is [pr/7], [get_pr_id] gives 7 and [is_pr_build]
    answers [True] from then on, whatever the details of the item held
    before. *)
Theorem batch_sourceVersion_overrides b v :
  fetched_batch env batch_id = Ok (VDict b) ->
  dict_get "sourceVersion" b = Some v ->
  let s1 := snd (_get_build_details env s) in
  let d1 := dict_set "sourceVersion" v d in
  s1 = snd (_process_batch env (stored s (VDict d))) /\
  _build_details (self s1) = Some (VDict d1) /\
  dict_get "sourceVersion" d1 = Some v /\
  (forall k, k <> "sourceVersion" -> dict_get k d1 = dict_get k d) /\
  _get_build_details env s1 = (Ok (VDict d1), s1) /\
  (v = VStr "pr/7" ->
   get_pr_id env s1 = (Ok (VInt 7), s1) /\
   is_pr_build env s1 = (Ok true, s1)).
Proof.
  intros Hf Hv s1 d1.
  destruct (_process_batch env (stored s (VDict d))) as [r s2] eqn:Hrun.
  destruct (resolution_run _ _ Hrun) as (dx & Hdx & Hget).
  assert (Hs1 : s1 = s2) by (subst s1; rewrite Hget; reflexivity).
  pose proof (_process_batch_sourceVersion env _ _ _ _ _ _ stored_details
                in_batch second_segment Hf Hv) as Hd1.
  rewrite Hrun in Hd1. cbn [snd] in Hd1. fold d1 in Hd1.
  rewrite Hs1. clear Hs1 s1.
  assert (Hcached : _get_build_details env s2 = (Ok (VDict d1), s2))
    by (apply _get_build_details_cached, Hd1).
  assert (Hsv : dict_get "sourceVersion" d1 = Some v)
    by apply dict_get_set_same.
  assert (Hpr : v = VStr "pr/7" -> get_pr_id env s2 = (Ok (VInt 7), s2)).
  { intros ->.
    apply (get_pr_id_run env s2 d1 s2 "pr/7" Hcached).
    cbn [py_get]. rewrite Hsv. reflexivity. }
  repeat split; auto.
  - intros k Hk. apply dict_get_set_other, Hk.
  - match goal with
    | Hv7 : v = VStr "pr/7" |- _ =>
        rewrite (is_pr_build_run env _ _ _ (Hpr Hv7))
    end.
    reflexivity.
Qed.

(** C2, as amended: for a build of a batch whose details contain both
    [sourceVersion] and [buildGroups], the first group, in the order of the
    service, whose [currentBuildSummary.arn] equals the arn of the build
    decides; when that group has an identifier and a [buildStatus], [status]
    becomes that [buildStatus] and [group_identifier] that identifier, so an
    item that succeeded reads [SUCCEEDED] whatever the status of the
    event. *)
Theorem first_group_of_build_decides b v groups a gd identifier sd item_status :
  fetched_batch env batch_id = Ok (VDict b) ->
  dict_get "sourceVersion" b = Some v ->
  dict_get "buildGroups" b = Some (VList groups) ->
  dict_get "arn" d = Some a ->
  first_group_of a groups (VDict gd) ->
  dict_get "identifier" gd = Some identifier ->
  dict_get "currentBuildSummary" gd = Some (VDict sd) ->
  dict_get "buildStatus" sd = Some item_status ->
  exists s1,
    _get_build_details env s
    = (Ok (VDict (dict_set "sourceVersion" v d)), s1) /\
    status (self s1) = item_status /\
    group_identifier (self s1) = identifier /\
    (item_status = VStr "SUCCEEDED" -> status (self s1) = VStr "SUCCEEDED").
Proof.
  intros Hf Hv Hg Ha Hfirst Hi Hsd Hst.
  pose proof (_process_batch_group env _ _ _ _ _ _ _ _ _ _ stored_details
                in_batch second_segment Hf Hv Hg Ha Hfirst Hsd) as Hrun.
  rewrite Hi in Hrun. cbn [py_getitem] in Hrun. rewrite Hst in Hrun.
  destruct (resolution_run _ _ Hrun) as (d1 & Hd1 & Hget).
  cbn in Hd1. inversion Hd1. subst d1.
  eexists. split; [exact Hget|]. repeat split; auto.
Qed.

(** C9: on the path where batch resolution reaches the group of the build
    (the batch has [sourceVersion] and [buildGroups], and the first group
    with the arn of the build has an identifier), a [currentBuildSummary]
    without [buildStatus] makes detail resolution raise KeyError; by then
    [group_identifier] holds the identifier of the group and [status] still
    holds the value it had.  The details are cached all the same, so a later
    call returns them and the instance stays half resolved. *)
Theorem missing_buildStatus_raises_after_identifier
    b v groups a gd identifier sd :
  fetched_batch env batch_id = Ok (VDict b) ->
  dict_get "sourceVersion" b = Some v ->
  dict_get "buildGroups" b = Some (VList groups) ->
  dict_get "arn" d = Some a ->
  first_group_of a groups (VDict gd) ->
  dict_get "identifier" gd = Some identifier ->
  dict_get "currentBuildSummary" gd = Some (VDict sd) ->
  dict_get "buildStatus" sd = None ->
  exists s1,
    _get_build_details env s = (Raise KeyError, s1) /\
    group_identifier (self s1) = identifier /\
    status (self s1) = status (self s) /\
    _get_build_details env s1
    = (Ok (VDict (dict_set "sourceVersion" v d)), s1).
Proof.
  intros Hf Hv Hg Ha Hfirst Hi Hsd Hst.
  pose proof (_process_batch_group env _ _ _ _ _ _ _ _ _ _ stored_details
                in_batch second_segment Hf Hv Hg Ha Hfirst Hsd) as Hrun.
  rewrite Hi in Hrun. cbn [py_getitem] in Hrun. rewrite Hst in Hrun.
  destruct (resolution_run _ _ Hrun) as (d1 & Hd1 & Hget).
  eexists. split; [exact Hget|]. repeat split; auto.
Qed.

End Resolution.

(** ** The theorems on the sample batches *)

Lemma two_groups_first :
  first_group_of (VStr sample_arn) two_groups
    (sample_group (Some "linux") sample_arn (Some "SUCCEEDED")).
Proof.
  exists [sample_group (Some "windows") other_arn (Some "FAILED")], [].
  split; [reflexivity|]. split; [|split; [|split]].
  - constructor; [|constructor]. eexists. split; [reflexivity|].
    right. eexists. reflexivity.
  - constructor; [reflexivity|constructor].
  - eexists. split; [reflexivity|]. right. eexists. reflexivity.
  - reflexivity.
Qed.

Lemma benign_batch_keeps_event_status_witness :
  let env := batch_env (Raise KeyError) in
  let s := fresh (sample_build "FAILED") in
  exists d1 s1,
    _get_build_details env s = (Ok d1, s1) /\
    group_identifier (self s1) = VNone /\
    status (self s1) = VStr "FAILED".
Proof.
  intros env s.
  destruct (proj1 (benign_batch_keeps_event_status env s _ _ item_details _
                     "proj:batch1"
                     eq_refl eq_refl eq_refl eq_refl eq_refl eq_refl)
              (service_raises_KeyError env item_details "proj:batch1" eq_refl))
    as (d1 & s1 & Hget & Hgid & Hst & _).
  exists d1, s1. repeat split; assumption.
Defined.

(** C1, as stated, fails: the request for the batch fails with a client
    error, or it is answered with an empty [buildBatches] because the batch
    is not found, and detail resolution raises instead of returning. *)
Lemma batch_service_failure_propagates :
  let s := fresh (sample_build "FAILED") in
  (let env := batch_env (Raise (ServiceError "ClientError")) in
   dict_get "buildBatchArn" item_details
   = Some (VStr "arn:aws:codebuild:eu-west-1:1:build-batch/proj:batch1") /\
   batch_get_build_batches env [VStr "proj:batch1"]
   = Raise (ServiceError "ClientError") /\
   fst (_get_build_details env s) = Raise (ServiceError "ClientError")) /\
  (let env := batch_env (batch_response []) in
   batch_get_build_batches env [VStr "proj:batch1"]
   = Ok (VDict [("buildBatches", VList []); ("buildBatchesNotFound", VList [])]) /\
   fst (_get_build_details env s) = Raise IndexError).
Proof. repeat split. Qed.

Lemma first_group_of_build_decides_witness :
  let env := batch_env (batch_response [sample_batch (Some "pr/7") (Some two_groups)]) in
  let s := fresh (sample_build "FAILED") in
  exists s1,
    snd (_get_build_details env s) = s1 /\
    status (self s1) = VStr "SUCCEEDED" /\
    group_identifier (self s1) = VStr "linux".
Proof.
  intros env s.
  destruct (first_group_of_build_decides env s _ _ item_details _ "proj:batch1"
              eq_refl eq_refl eq_refl eq_refl eq_refl eq_refl
              _ (VStr "pr/7") two_groups (VStr sample_arn) _ (VStr "linux") _
              (VStr "SUCCEEDED")
              eq_refl eq_refl eq_refl eq_refl two_groups_first
              eq_refl eq_refl eq_refl)
    as (s1 & Hget & Hst & Hgid & _).
  exists s1. rewrite Hget. repeat split; assumption.
Defined.

(** C2, as stated, fails.  First, a batch with [buildGroups] but without
    [sourceVersion]: the group of the build has an identifier and succeeded,
    yet [status] stays [FAILED] and [group_identifier] stays [None].
    Second, two records with the arn of the build, of which only the later
    one has an identifier: the first group that has both the arn and an
    identifier is the later one, yet nothing is taken from it. *)
Lemma groups_ignored_by_resolution :
  let s := fresh (sample_build "FAILED") in
  let mine := sample_group (Some "linux") sample_arn (Some "SUCCEEDED") in
  (let batch := sample_batch None (Some two_groups) in
   let s1 := snd (_get_build_details (batch_env (batch_response [batch])) s) in
   py_getitem batch "buildGroups" = Ok (VList two_groups) /\
   find (group_of (VStr sample_arn)) two_groups = Some mine /\
   py_getitem mine "identifier" = Ok (VStr "linux") /\
   status (self s1) = VStr "FAILED" /\
   group_identifier (self s1) = VNone) /\
  (let batch := sample_batch (Some "pr/7") (Some twice_the_build) in
   let s1 := snd (_get_build_details (batch_env (batch_response [batch])) s) in
   py_getitem batch "buildGroups" = Ok (VList twice_the_build) /\
   find (fun g => group_of (VStr sample_arn) g &&
                  match py_in "identifier" g with Ok true => true | _ => false end)
        twice_the_build = Some mine /\
   status (self s1) = VStr "FAILED" /\
   group_identifier (self s1) = VNone).
Proof. repeat split. Qed.

Lemma batch_sourceVersion_overrides_witness :
  let env := batch_env (batch_response [sample_batch (Some "pr/7") (Some two_groups)]) in
  let s1 := snd (_get_build_details env (fresh (sample_build "FAILED"))) in
  dict_get "sourceVersion" item_details = Some (VStr "a1b2c3") /\
  is_pr_build env s1 = (Ok true, s1).
Proof.
  intros env s1. split; [reflexivity|].
  destruct (batch_sourceVersion_overrides env (fresh (sample_build "FAILED"))
              _ _ item_details _ "proj:batch1"
              eq_refl eq_refl eq_refl eq_refl eq_refl eq_refl
              _ (VStr "pr/7") eq_refl eq_refl)
    as (_ & _ & _ & _ & _ & Hpr).
  exact (proj2 (Hpr eq_refl)).
Defined.

Lemma missing_buildStatus_raises_after_identifier_witness :
  let groups := [sample_group (Some "windows") other_arn (Some "FAILED");
                 sample_group (Some "linux") sample_arn None] in
  let env := batch_env (batch_response [sample_batch (Some "pr/7") (Some groups)]) in
  let s := fresh (sample_build "FAILED") in
  exists s1,
    _get_build_details env s = (Raise KeyError, s1) /\
    group_identifier (self s1) = VStr "linux" /\
    status (self s1) = VStr "FAILED".
Proof.
  intros groups env s.
  assert (Hfirst : first_group_of (VStr sample_arn) groups
                     (sample_group (Some "linux") sample_arn None)).
  { exists [sample_group (Some "windows") other_arn (Some "FAILED")], [].
    split; [reflexivity|]. split; [|split; [|split]].
    - constructor; [|constructor]. eexists. split; [reflexivity|].
      right. eexists. reflexivity.
    - constructor; [reflexivity|constructor].
    - eexists. split; [reflexivity|]. right. eexists. reflexivity.
    - reflexivity. }
  destruct (missing_buildStatus_raises_after_identifier env s _ _ item_details _
              "proj:batch1" eq_refl eq_refl eq_refl eq_refl eq_refl eq_refl
              _ (VStr "pr/7") groups (VStr sample_arn) _ (VStr "linux") _
              eq_refl eq_refl eq_refl eq_refl Hfirst eq_refl eq_refl eq_refl)
    as (s1 & Hget & Hgid & Hst & _).
  exists s1. repeat split; assumption.
Defined.

Lemma build_details_fetched_once_witness :
  let env := batch_env (batch_response [sample_batch (Some "pr/7") (Some two_groups)]) in
  let s := fresh (sample_build "FAILED") in
  let s1 := snd (_get_build_details env s) in
  let s2 := snd (_get_build_details env s1) in
  s2 = s1 /\ count_calls is_BatchGetBuilds (calls s2) = 1 /\
  count_calls is_build_service_call (calls s2) <= 2.
Proof.
  intros env s s1 s2.
  destruct (build_details_fetched_once env s _ _ _ eq_refl eq_refl eq_refl eq_refl)
    as (_ & _ & d & _ & _ & _ & Hn).
  exact (Hn 1).
Defined.

(** C6, as stated, fails: for an item of a batch the first call sends two
    requests to the build service, the query for the build and the request
    for the batch, so two calls of [_get_build_details] trigger two calls to
    that service, not one. *)
Lemma batch_item_calls_the_build_service_twice :
  let env := batch_env (batch_response [sample_batch (Some "pr/7") (Some two_groups)]) in
  let s := fresh (sample_build "FAILED") in
  let s1 := snd (_get_build_details env s) in
  let s2 := snd (_get_build_details env s1) in
  calls s2 = [BatchGetBuilds [VStr "proj:b1"];
              BatchGetBuildBatches [VStr "proj:batch1"]] /\
  count_calls is_build_service_call (calls s2) = 2.
Proof. repeat split. Qed.

(** C7, as stated, fails: the [sourceVersion] is [pr/] followed by 4301
    digits, the pattern matches and captures them all, and [get_pr_id]
    raises ValueError instead of returning an integer; [is_pr_build] raises
    with it. *)
Lemma long_pr_number_raises :
  let sv := ("pr/" ++ str_repeat "1" 4301)%string in
  let env := sample_env (sample_details sv) (Raise KeyError) in
  let s := fresh (sample_build "SUCCEEDED") in
  re_match_pr sv = Some (str_repeat "1" 4301) /\
  fst (get_pr_id env s) = Raise ValueError /\
  fst (is_pr_build env s) = Raise ValueError.
Proof. vm_compute. repeat split. Qed.

(** ** The library functions on small inputs *)

Example split_batch_arn :
  str_split "/" "arn:aws:codebuild:eu-west-1:1:build-batch/proj:batch1"
  = ["arn:aws:codebuild:eu-west-1:1:build-batch"; "proj:batch1"].
Proof. reflexivity. Qed.

Example split_without_separator : list_index (str_split "/" "batch1") 1 = Raise IndexError.
Proof. reflexivity. Qed.

Example quote_plus_reserved : quote_plus "a b+c/d~e%" = "a+b%2Bc%2Fd~e%25".
Proof. reflexivity. Qed.

Example quote_plus_latin1 :
  quote_plus (String (ascii_of_nat 233) "t" ++ String (ascii_of_nat 233) "")
  = "%C3%A9t%C3%A9".
Proof. reflexivity. Qed.

Example re_match_pr_examples :
  re_match_pr "pr/42" = Some "42" /\ re_match_pr "pr/007x" = Some "007" /\
  re_match_pr "pr/" = None /\ re_match_pr "xpr/1" = None /\
  re_match_pr "a1b2c3" = None /\ py_int "007" = Ok 7%Z.
Proof. repeat split. Qed.

Example py_str_example :
  py_str (VDict [("a", VList [VInt (-3); VStr "it's"; VNone])])
  = Ok (String "{" ("'a': [-3, " ++ String dquote ("it's" ++ String dquote ", None]}")))%string.
Proof. vm_compute. reflexivity. Qed.

Example calls_of_a_batch_item :
  calls (snd (_get_build_details
                (batch_env (batch_response [sample_batch (Some "pr/7") (Some two_groups)]))
                (fresh (sample_build "FAILED"))))
  = [BatchGetBuilds [VStr "proj:b1"]; BatchGetBuildBatches [VStr "proj:batch1"]].
Proof. reflexivity. Qed.

(** ** What no method does *)

Lemma frame_refl s : frame s s.
Proof.
  repeat split; auto. exists []. rewrite app_nil_r. reflexivity.
Qed.

Lemma frame_trans s1 s2 s3 : frame s1 s2 -> frame s2 s3 -> frame s1 s3.
Proof.
  intros (I1 & P1 & E1 & (x1 & C1) & D1) (I2 & P2 & E2 & (x2 & C2) & D2).
  repeat split; try congruence; auto.
  exists (x1 ++ x2). rewrite C2, C1, app_assoc. reflexivity.
Qed.

Lemma frame_record c : preserves frame (record c).
Proof.
  intros s. cbn. repeat split; auto. exists [c]. reflexivity.
Qed.

Lemma frame_set_self (f : Build -> Build) :
  (forall b, id (f b) = id b) ->
  (forall b, project_name (f b) = project_name b) ->
  (forall b, _build_event (f b) = _build_event b) ->
  (forall b, _build_details b <> None -> _build_details (f b) <> None) ->
  preserves frame (b <- get_self ;; set_self (f b)).
Proof.
  intros Hi Hp He Hd s. cbn.
  split; [apply Hi|]. split; [apply Hp|]. split; [apply He|].
  split; [|apply Hd].
  exists []. rewrite app_nil_r. reflexivity.
Qed.

Ltac frame_leaf :=
  first [ apply frame_record
        | apply frame_set_self; intros; cbn; congruence
        | unfold set_build_details;
          apply frame_set_self; intros; cbn; congruence ].

Ltac frame_steps := preserve_steps frame_refl frame_trans frame_leaf.

Section Frame.

Variable env : Env.

Lemma frame__process_batch : preserves frame (_process_batch env).
Proof. unfold _process_batch. frame_steps. Qed.

Lemma frame__get_build_details : preserves frame (_get_build_details env).
Proof.
  unfold _get_build_details.
  apply (preserves_bind _ frame_trans); [apply (preserves_get_self _ frame_refl)|].
  intros b. destruct (_build_details b).
  - apply (preserves_self_build_details _ frame_refl frame_trans).
  - frame_steps.
Qed.

Lemma frame_get_pr_id : preserves frame (get_pr_id env).
Proof.
  unfold get_pr_id.
  apply (preserves_bind _ frame_trans); [apply frame__get_build_details|].
  intros details. frame_steps.
Qed.

Lemma frame__get_logs_key : preserves frame (_get_logs_key env).
Proof.
  unfold _get_logs_key.
  apply (preserves_bind _ frame_trans); [apply frame__get_build_details|].
  intros details. frame_steps.
Qed.

(** X11: no method of [Build] changes [id], [project_name] or the event it
    was built from, none removes a request already sent, and none deletes
    the cached build details; this holds whether the method returns or
    raises, for every answer of the services. *)
Theorem methods_keep_the_instance_identity :
  preserves frame (_process_batch env) /\
  preserves frame (_get_build_details env) /\
  preserves frame (get_pr_id env) /\
  preserves frame (commit_id env) /\
  preserves frame (is_pr_build env) /\
  preserves frame (_get_logs_key env) /\
  preserves frame (copy_logs env) /\
  preserves frame (get_logs_url env).
Proof.
  split; [apply frame__process_batch|].
  split; [apply frame__get_build_details|].
  split; [apply frame_get_pr_id|].
  split; [|split; [|split; [apply frame__get_logs_key|split]]].
  - unfold commit_id.
    apply (preserves_bind _ frame_trans); [apply frame__get_build_details|].
    intros details. frame_steps.
  - unfold is_pr_build.
    apply (preserves_bind _ frame_trans); [apply frame_get_pr_id|].
    intros pr. destruct pr; apply (preserves_ret _ frame_refl).
  - unfold copy_logs.
    apply (preserves_bind _ frame_trans); [apply frame__get_build_details|].
    intros details.
    do 6 (apply (preserves_bind _ frame_trans);
          [first [apply (preserves_lift _ frame_refl)|apply frame_record]|intros ?]).
    apply (preserves_bind _ frame_trans); [apply frame__get_logs_key|].
    intros key. frame_steps.
  - unfold get_logs_url.
    apply (preserves_bind _ frame_trans); [apply frame__get_logs_key|].
    intros key. apply (preserves_ret _ frame_refl).
Qed.

End Frame.

(** ** The constructor and the query for the build *)

(** X1: the constructor succeeds exactly on an event that is a dictionary
    whose [detail] is a dictionary with [build-id], [project-name] and
    [build-status]; the instance then carries these three values, no group
    identifier and no build details.  On any other event it raises KeyError
    (a key is missing) or TypeError (the event or its [detail] is not a
    dictionary), nothing else. *)
Theorem constructor_needs_the_three_fields :
  (forall ev b,
      __init__ ev = Ok b <->
      exists e dd i p st,
        ev = VDict e /\ dict_get "detail" e = Some (VDict dd) /\
        dict_get "build-id" dd = Some i /\
        dict_get "project-name" dd = Some p /\
        dict_get "build-status" dd = Some st /\
        b = {| _build_event := ev; id := i; project_name := p; status := st;
               group_identifier := VNone; _build_details := None |}) /\
  (forall ev e, __init__ ev = Raise e -> e = KeyError \/ e = TypeError).
Proof.
  split.
  - intros ev b. split.
    + unfold __init__. destruct ev as [| | | | |e]; try discriminate.
      cbn [py_getitem].
      destruct (dict_get "detail" e) as [[| | | | |dd]|] eqn:Hd; try discriminate.
      cbn [py_getitem].
      destruct (dict_get "build-id" dd) as [i|] eqn:Hi; [|discriminate].
      destruct (dict_get "project-name" dd) as [p|] eqn:Hp; [|discriminate].
      destruct (dict_get "build-status" dd) as [st|] eqn:Hs; [|discriminate].
      intros H. inversion H. exists e, dd, i, p, st. repeat split; auto.
    + intros (e & dd & i & p & st & -> & Hd & Hi & Hp & Hs & ->).
      unfold __init__. cbn [py_getitem]. rewrite Hd. cbn [py_getitem].
      rewrite Hi, Hp, Hs. reflexivity.
  - intros ev e. unfold __init__.
    destruct ev as [| | | | |ed]; cbn [py_getitem];
      try (intros H; inversion H; auto).
    revert H.
    destruct (dict_get "detail" ed) as [[| | | | |dd]|]; cbn [py_getitem];
      try (intros H; inversion H; auto).
    revert H.
    destruct (dict_get "build-id" dd); [|intros H; inversion H; auto].
    destruct (dict_get "project-name" dd); [|intros H; inversion H; auto].
    destruct (dict_get "build-status" dd); intros H; inversion H; auto.
Qed.

Section Query.

Variable env : Env.

Lemma fetched_build_Ok b first :
  fetched_build env b = Ok first ->
  exists response builds,
    batch_get_builds env [id b] = Ok response /\
    py_getitem response "builds" = Ok builds /\
    py_index builds 0 = Ok first.
Proof.
  unfold fetched_build.
  destruct (batch_get_builds env [id b]) as [response|] eqn:Hr; [|discriminate].
  destruct (py_getitem response "builds") as [builds|] eqn:Hb; [|discriminate].
  intros H. eauto.
Qed.

(** Detail resolution on an instance without details, given how batch
    resolution ends on the stored result. *)
Lemma _get_build_details_resolves s first r s1 :
  _build_details (self s) = None ->
  fetched_build env (self s) = Ok first ->
  _process_batch env (stored s first) = (r, s1) ->
  exists d1,
    _build_details (self s1) = Some d1 /\
    _get_build_details env s =
    (match r with Ok _ => Ok d1 | Raise e => Raise e end, s1).
Proof.
  intros Hn Hf Hrun.
  destruct (fetched_build_Ok _ _ Hf) as (response & builds & Hr & Hb & Hi).
  destruct (_get_build_details_first env s _ _ _ Hn Hr Hb Hi) as (d1 & Hd1 & Hget).
  rewrite Hrun in *. cbn [fst snd] in *. eauto.
Qed.

Lemma _get_build_details_not_fetched s e :
  _build_details (self s) = None ->
  fetched_build env (self s) = Raise e ->
  _get_build_details env s = (Raise e, queried s).
Proof.
  intros Hn Hf. unfold _get_build_details.
  unfold bind at 1. unfold get_self at 1. rewrite Hn.
  rewrite bind_record. unfold fetched_build in Hf.
  rewrite bind_lift.
  destruct (batch_get_builds env [id (self s)]) as [response|];
    [|inversion Hf; reflexivity].
  rewrite bind_lift.
  destruct (py_getitem response "builds") as [builds|];
    [|inversion Hf; reflexivity].
  rewrite bind_lift, Hf. reflexivity.
Qed.

(** X2: for a build whose details carry no [buildBatchArn], the first call
    of [_get_build_details] sends the one query for the build, returns the
    details as the service gave them and stores them; no request for a batch
    goes out, and [status] and [group_identifier] stay as the constructor
    set them. *)
Theorem build_outside_a_batch_is_left_alone s d :
  _build_details (self s) = None ->
  fetched_build env (self s) = Ok (VDict d) ->
  dict_get "buildBatchArn" d = None ->
  let s1 := snd (_get_build_details env s) in
  _get_build_details env s = (Ok (VDict d), s1) /\
  _build_details (self s1) = Some (VDict d) /\
  calls s1 = calls s ++ [BatchGetBuilds [id (self s)]] /\
  status (self s1) = status (self s) /\
  group_identifier (self s1) = group_identifier (self s).
Proof.
  intros Hn Hf Hb s1.
  pose proof (_process_batch_no_batch env (stored s (VDict d)) d eq_refl Hb)
    as Hrun.
  destruct (_get_build_details_resolves _ _ _ _ Hn Hf Hrun) as (d1 & Hd1 & Hget).
  cbn in Hd1. inversion Hd1. subst d1 s1. rewrite Hget. cbn [snd].
  repeat split; reflexivity.
Qed.

(** X3: when the query for the build fails (the service raises, the answer
    has no [builds] entry, or the list is empty), [_get_build_details]
    raises that exception and stores nothing; so every further call sends
    the query again and fails the same way: after [n] calls the requests
    hold [n] queries more. *)
Theorem failed_query_is_not_cached s e :
  _build_details (self s) = None ->
  fetched_build env (self s) = Raise e ->
  _get_build_details env s = (Raise e, queried s) /\
  _build_details (self (queried s)) = None /\
  forall n,
    let sn := Nat.iter n (fun st => snd (_get_build_details env st)) s in
    self sn = self s /\
    calls sn = calls s ++ repeat (BatchGetBuilds [id (self s)]) n /\
    fst (_get_build_details env sn) = Raise e.
Proof.
  intros Hn Hf. split; [apply _get_build_details_not_fetched; assumption|].
  split; [exact Hn|].
  intros n. cbn zeta. induction n as [|n (IHs & IHc & IHr)].
  - cbn [Nat.iter nat_rect repeat]. rewrite app_nil_r.
    rewrite (_get_build_details_not_fetched _ _ Hn Hf). repeat split.
  - rewrite Nat.iter_succ.
    set (sn := Nat.iter n (fun st => snd (_get_build_details env st)) s) in *.
    assert (Hn' : _build_details (self sn) = None) by (rewrite IHs; exact Hn).
    assert (Hf' : fetched_build env (self sn) = Raise e) by (rewrite IHs; exact Hf).
    rewrite (_get_build_details_not_fetched _ _ Hn' Hf'). cbn [snd].
    split; [exact IHs|]. split.
    + cbn [queried calls]. rewrite IHc, IHs, <- app_assoc.
      f_equal. cbn [repeat]. rewrite repeat_cons. reflexivity.
    + assert (Hq : _build_details (self (queried sn)) = None) by exact Hn'.
      assert (Hfq : fetched_build env (self (queried sn)) = Raise e) by exact Hf'.
      rewrite (_get_build_details_not_fetched _ _ Hq Hfq). reflexivity.
Qed.

End Query.

(** ** Requests and effects of detail resolution *)

Lemma str_split_no_separator sep s :
  str_forall (fun c => negb (Ascii.eqb c sep)) s = true ->
  str_split sep s = [s].
Proof.
  induction s as [|c s IH]; cbn; [reflexivity|].
  intros H. apply andb_prop in H. destruct H as [Hc Hs].
  apply negb_true_iff in Hc. rewrite Hc, (IH Hs). reflexivity.
Qed.

Lemma str_split_first sep a t :
  str_forall (fun c => negb (Ascii.eqb c sep)) a = true ->
  str_split sep (a ++ String sep t) = a :: str_split sep t.
Proof.
  induction a as [|c a IH]; cbn.
  - intros _. rewrite Ascii.eqb_refl. reflexivity.
  - intros H. apply andb_prop in H. destruct H as [Hc Ha].
    apply negb_true_iff in Hc. rewrite Hc, (IH Ha). reflexivity.
Qed.

Lemma str_split_join sep s : join (String sep "") (str_split sep s) = s.
Proof.
  induction s as [|c s IH]; [reflexivity|].
  cbn [str_split]. destruct (Ascii.eqb_spec c sep) as [->|Hne].
  - destruct (str_split sep s) as [|f fs] eqn:E.
    + cbn in IH. subst s. cbn in E. discriminate.
    + cbn [join]. cbn [join] in IH. rewrite IH. reflexivity.
  - destruct (str_split sep s) as [|f fs] eqn:E.
    + cbn in IH. subst s. cbn in E. discriminate.
    + destruct fs as [|f' fs']; cbn [join] in *; rewrite <- IH; reflexivity.
Qed.

Lemma second_segment_of a b rest :
  str_forall (fun c => negb (Ascii.eqb c "/")) a = true ->
  str_forall (fun c => negb (Ascii.eqb c "/")) b = true ->
  rest = EmptyString \/ (exists r, rest = String "/" r) ->
  list_index (str_split "/" (a ++ String "/" (b ++ rest))) 1 = Ok b.
Proof.
  intros Ha Hb Hrest. rewrite (str_split_first _ _ _ Ha).
  destruct Hrest as [->|[r ->]].
  - assert (Hb' : (b ++ "")%string = b)
      by (clear; induction b as [|c b IH]; cbn; [|rewrite IH]; reflexivity).
    rewrite Hb', (str_split_no_separator _ _ Hb). reflexivity.
  - rewrite (str_split_first _ _ _ Hb). reflexivity.
Qed.

Section Requests.

Variable env : Env.

(** X4: whatever the state and the answers of the services, a call of
    [_get_build_details] sends no request at all, or the query for the build
    alone, or that query followed by one request for a batch; it never
    touches the logging service or the storage.  With cached details it
    sends nothing. *)
Theorem detail_resolution_sends_at_most_two_requests s :
  let s1 := snd (_get_build_details env s) in
  (exists extra,
      calls s1 = calls s ++ extra /\
      (extra = [] \/
       extra = [BatchGetBuilds [id (self s)]] \/
       exists batch_id,
         extra = [BatchGetBuilds [id (self s)];
                  BatchGetBuildBatches [VStr batch_id]])) /\
  (_build_details (self s) <> None -> calls s1 = calls s).
Proof.
  intros s1. subst s1.
  destruct (_build_details (self s)) as [d|] eqn:Hd.
  - rewrite (_get_build_details_cached env _ _ Hd). cbn [snd].
    split; [|reflexivity]. exists []. rewrite app_nil_r. auto.
  - split; [|intros H; contradiction].
    destruct (fetched_build env (self s)) as [first|e] eqn:Hf.
    + destruct (_process_batch env (stored s first)) as [r s2] eqn:Hrun.
      destruct (_get_build_details_resolves env _ _ _ _ Hd Hf Hrun)
        as (d1 & _ & Hget).
      rewrite Hget. cbn [snd].
      pose proof (_process_batch_at_most_one_request env (stored s first)) as Hc.
      rewrite Hrun in Hc. cbn [snd stored calls] in Hc.
      destruct Hc as [Hc|[batch_id Hc]]; rewrite Hc.
      * eexists. split; [reflexivity|]. auto.
      * rewrite <- app_assoc. eexists. split; [reflexivity|].
        right. right. exists batch_id. reflexivity.
    + rewrite (_get_build_details_not_fetched env _ _ Hd Hf). cbn [snd queried calls].
      eexists. split; [reflexivity|]. auto.
Qed.

(** X5: the batch asked for is the second [/]-separated segment of
    [buildBatchArn]: for an arn [a/b] or [a/b/...] one request goes out, for
    [b], whatever the service answers.  An arn without [/] has no second
    segment: batch resolution raises IndexError, which the [try] does not
    catch, before any request is sent and without changing the instance. *)
Theorem batch_id_is_the_second_segment s d :
  _build_details (self s) = Some (VDict d) ->
  (forall a b rest,
      dict_get "buildBatchArn" d = Some (VStr (a ++ String "/" (b ++ rest))) ->
      str_forall (fun c => negb (Ascii.eqb c "/")) a = true ->
      str_forall (fun c => negb (Ascii.eqb c "/")) b = true ->
      rest = EmptyString \/ (exists r, rest = String "/" r) ->
      calls (snd (_process_batch env s))
      = calls s ++ [BatchGetBuildBatches [VStr b]]) /\
  (forall batch_arn,
      dict_get "buildBatchArn" d = Some (VStr batch_arn) ->
      str_forall (fun c => negb (Ascii.eqb c "/")) batch_arn = true ->
      _process_batch env s = (Raise IndexError, s)).
Proof.
  intros Hd. split.
  - intros a b rest Hb Ha Hbb Hrest.
    apply (_process_batch_calls env _ _ _ _ Hd Hb).
    apply second_segment_of; assumption.
  - intros batch_arn Hb Hno.
    apply (_process_batch_no_segment env _ _ _ Hd Hb).
    rewrite (str_split_no_separator _ _ Hno). reflexivity.
Qed.

(** X12: whatever the details, the answers of the service and the groups
    are, and whether it returns or raises, batch resolution leaves the
    instance unchanged, or has written into the build details the
    [sourceVersion] of the batch the service gave for the second segment of
    [buildBatchArn], or has done that and assigned [group_identifier] from a
    group of that batch, or has done both and assigned [status] from the
    same group: the three writes only happen in this order.  So a changed
    [status] or [group_identifier] implies that the cached [sourceVersion]
    is now the one of the batch, and a changed [status] is the
    [buildStatus] of the group whose identifier [group_identifier] holds. *)
Theorem batch_resolution_writes_in_order s :
  let s1 := snd (_process_batch env s) in
  batch_effect env (self s) (self s1) /\
  (status (self s1) <> status (self s) \/
   group_identifier (self s1) <> group_identifier (self s) ->
   exists d batch_arn batch_id batch v,
     _build_details (self s) = Some (VDict d) /\
     dict_get "buildBatchArn" d = Some (VStr batch_arn) /\
     list_index (str_split "/" batch_arn) 1 = Ok batch_id /\
     fetched_batch env batch_id = Ok batch /\
     py_getitem batch "sourceVersion" = Ok v /\
     _build_details (self s1) = Some (VDict (dict_set "sourceVersion" v d)) /\
     exists listed groups group,
       py_getitem batch "buildGroups" = Ok listed /\
       py_iter listed = Ok groups /\
       In group groups /\
       py_getitem group "identifier" = Ok (group_identifier (self s1)) /\
       (status (self s1) <> status (self s) ->
        exists summary,
          py_getitem group "currentBuildSummary" = Ok summary /\
          py_getitem summary "buildStatus" = Ok (status (self s1)))).
Proof.
  intros s1. pose proof (_process_batch_effect env s) as He. fold s1 in He.
  split; [exact He|].
  intros Hchanged.
  destruct He as [He|(d & arn & batch_id & batch & v & Hd & Harn & Hid & Hf & Hv & He)].
  - rewrite He in Hchanged. destruct Hchanged as [H|H]; contradiction.
  - exists d, arn, batch_id, batch, v. do 5 (split; [assumption|]).
    cbn zeta in He.
    destruct He as [He|(listed & groups & group & identifier & Hl & Hit & Hin & Hi & He)].
    + rewrite He in Hchanged. cbn in Hchanged.
      destruct Hchanged as [H|H]; contradiction.
    + destruct He as [He|(summary & item_status & Hsum & Hst & He)];
        rewrite He; cbn [_build_details with_status with_group_identifier
                         with_build_details group_identifier status];
        (split; [reflexivity|]); exists listed, groups, group;
        do 4 (split; [assumption|]).
      * intros Hs. contradiction.
      * intros _. exists summary. split; assumption.
Qed.

(** X6: build details without an [arn] make batch resolution fail late.
    Groups without a [currentBuildSummary.arn] are skipped; at the first
    group that has one, the comparison looks up the arn of the build and
    raises KeyError, outside the [try].  By then the [sourceVersion] of the
    batch is in the cached details; [status] and [group_identifier] are
    untouched. *)
Theorem build_without_arn_fails_at_first_group_arn
    s d batch_arn batch_id b v before g after :
  _build_details (self s) = None ->
  fetched_build env (self s) = Ok (VDict d) ->
  dict_get "buildBatchArn" d = Some (VStr batch_arn) ->
  list_index (str_split "/" batch_arn) 1 = Ok batch_id ->
  fetched_batch env batch_id = Ok (VDict b) ->
  dict_get "sourceVersion" b = Some v ->
  dict_get "buildGroups" b = Some (VList (before ++ g :: after)) ->
  dict_get "arn" d = None ->
  Forall is_group before ->
  Forall (fun g' => summary_arn g' = None) before ->
  is_group g ->
  summary_arn g <> None ->
  exists s1,
    _get_build_details env s = (Raise KeyError, s1) /\
    _build_details (self s1) = Some (VDict (dict_set "sourceVersion" v d)) /\
    status (self s1) = status (self s) /\
    group_identifier (self s1) = group_identifier (self s).
Proof.
  intros Hn Hfb Hb Hid Hf Hv Hg Ha Hbef Hnone Hgg Harn.
  pose proof (_process_batch_missing_arn env (stored s (VDict d)) _ _ _ _ _ _ _ _
                eq_refl Hb Hid Hf Hv Hg Ha Hbef Hnone Hgg Harn) as Hrun.
  destruct (_get_build_details_resolves env _ _ _ _ Hn Hfb Hrun) as (d1 & _ & Hget).
  eexists. split; [exact Hget|]. repeat split.
Qed.

(** X15: for a build of a batch whose [sourceVersion] is a string, the
    answer of [get_pr_id] and [is_pr_build] after detail resolution depends
    on that string alone: the [sourceVersion] of the item itself no longer
    counts.  An item is a pull-request build when the batch reads
    [pr/<digits>] at its start with at most 4300 digits, it is none when the
    batch does not read so, and with more digits both methods raise
    ValueError. *)
Theorem batch_version_decides_pull_request s d batch_arn batch_id b sv :
  _build_details (self s) = None ->
  fetched_build env (self s) = Ok (VDict d) ->
  dict_get "buildBatchArn" d = Some (VStr batch_arn) ->
  list_index (str_split "/" batch_arn) 1 = Ok batch_id ->
  fetched_batch env batch_id = Ok (VDict b) ->
  dict_get "sourceVersion" b = Some (VStr sv) ->
  let s1 := snd (_get_build_details env s) in
  get_pr_id env s1 = (pr_id_of sv, s1) /\
  (forall ds rest,
      sv = ("pr/" ++ ds ++ rest)%string -> ds <> EmptyString ->
      str_forall is_digit ds = true -> no_digit_ahead rest ->
      (String.length ds <= int_max_str_digits ->
       get_pr_id env s1 = (Ok (VInt (decimal ds)), s1) /\
       is_pr_build env s1 = (Ok true, s1)) /\
      (int_max_str_digits < String.length ds ->
       get_pr_id env s1 = (Raise ValueError, s1) /\
       is_pr_build env s1 = (Raise ValueError, s1))) /\
  (~ pr_reference sv ->
   get_pr_id env s1 = (Ok VNone, s1) /\
   is_pr_build env s1 = (Ok false, s1)).
Proof.
  intros Hn Hfb Hb Hid Hf Hv s1.
  destruct (_process_batch env (stored s (VDict d))) as [r s2] eqn:Hrun.
  destruct (_get_build_details_resolves env _ _ _ _ Hn Hfb Hrun) as (d1 & _ & Hget).
  assert (Hs1 : s1 = s2) by (subst s1; rewrite Hget; reflexivity).
  pose proof (_process_batch_sourceVersion env (stored s (VDict d)) _ _ _ _ _
                eq_refl Hb Hid Hf Hv) as Hd1.
  rewrite Hrun in Hd1. cbn [snd] in Hd1. rewrite Hs1. clear Hs1 s1.
  assert (Hrunpr : get_pr_id env s2 = (pr_id_of sv, s2)).
  { apply (get_pr_id_run env s2 _ s2 sv (_get_build_details_cached env _ _ Hd1)).
    cbn [py_get]. rewrite dict_get_set_same. reflexivity. }
  split; [exact Hrunpr|]. unfold pr_id_of in Hrunpr. split.
  - intros ds rest -> Hne Hd Hr.
    rewrite (re_match_pr_complete _ _ Hne Hd Hr) in Hrunpr. split.
    + intros Hlen. rewrite (py_int_decimal _ Hlen) in Hrunpr.
      split; [exact Hrunpr|].
      rewrite (is_pr_build_run env _ _ _ Hrunpr). reflexivity.
    + intros Hlen. rewrite (py_int_too_long _ Hlen) in Hrunpr.
      split; [exact Hrunpr|]. unfold is_pr_build.
      rewrite (bind_Raise _ _ _ _ _ Hrunpr). reflexivity.
  - intros Hpr. rewrite (re_match_pr_None _ Hpr) in Hrunpr.
    split; [exact Hrunpr|].
    rewrite (is_pr_build_run env _ _ _ Hrunpr). reflexivity.
Qed.

End Requests.

(** ** Edge cases of the accessors *)

Lemma decimal_nonnegative ds :
  str_forall is_digit ds = true -> (0 <= decimal ds)%Z.
Proof.
  induction ds as [|c ds IH]; cbn [str_forall decimal]; [lia|].
  intros H. apply andb_prop in H. destruct H as [Hc Hds].
  specialize (IH Hds).
  assert (0 <= digit_value c)%Z.
  { unfold is_digit in Hc. apply andb_prop in Hc. destruct Hc as [Hlo _].
    apply Nat.leb_le in Hlo. unfold digit_value. lia. }
  assert (0 <= 10 ^ Z.of_nat (String.length ds))%Z by (apply Z.pow_nonneg; lia).
  nia.
Qed.

Section Edges.

Variable env : Env.

(** X13: an identifier of a pull request is never negative: when
    [get_pr_id] returns an integer, that integer is at least 0. *)
Theorem pr_id_is_not_negative s n s' :
  get_pr_id env s = (Ok (VInt n), s') -> (0 <= n)%Z.
Proof.
  unfold get_pr_id, bind.
  destruct (_get_build_details env s) as [[d|e] s1]; [|discriminate].
  destruct (py_get d "sourceVersion" (VStr "")) as [sv|e]; cbn [lift ret raise];
    [|discriminate].
  destruct sv as [| | |x| |]; cbn [re_match lift ret raise]; try discriminate.
  destruct (re_match_pr x) as [ds|] eqn:Hm; cbn; [|discriminate].
  destruct (Nat.le_gt_cases (String.length ds) int_max_str_digits) as [Hlen|Hlen].
  - rewrite (py_int_decimal _ Hlen). cbn. intros H. inversion H. subst n.
    apply re_match_pr_sound in Hm. destruct Hm as (rest & _ & _ & Hd & _).
    apply decimal_nonnegative, Hd.
  - rewrite (py_int_too_long _ Hlen). cbn. discriminate.
Qed.

(** X7: the fallback on the empty string is for a missing key only.  When
    the build details have a [sourceVersion] that is not a string ([None],
    a number, a list, ...), the pattern match raises TypeError, and
    [is_pr_build] raises with it instead of answering [False]; when the
    build details are not a dictionary, the lookup itself raises
    AttributeError. *)
Theorem sourceVersion_has_to_be_a_string s dv s' :
  _get_build_details env s = (Ok dv, s') ->
  (forall d v,
      dv = VDict d -> dict_get "sourceVersion" d = Some v ->
      (forall x, v <> VStr x) ->
      get_pr_id env s = (Raise TypeError, s') /\
      is_pr_build env s = (Raise TypeError, s')) /\
  ((forall d, dv <> VDict d) ->
   get_pr_id env s = (Raise AttributeError, s') /\
   is_pr_build env s = (Raise AttributeError, s')).
Proof.
  intros H. split.
  - intros d v -> Hv Hns.
    assert (Hg : get_pr_id env s = (Raise TypeError, s')).
    { unfold get_pr_id. rewrite (bind_Ok _ _ _ _ _ H), bind_lift.
      cbn [py_get]. rewrite Hv. rewrite bind_lift.
      destruct v as [| | |x| |]; try reflexivity.
      exfalso. apply (Hns x). reflexivity. }
    split; [exact Hg|]. unfold is_pr_build.
    rewrite (bind_Raise _ _ _ _ _ Hg). reflexivity.
  - intros Hnd.
    assert (Hg : get_pr_id env s = (Raise AttributeError, s')).
    { unfold get_pr_id. rewrite (bind_Ok _ _ _ _ _ H), bind_lift.
      destruct dv as [| | | | |d]; try reflexivity.
      exfalso. apply (Hnd d). reflexivity. }
    split; [exact Hg|]. unfold is_pr_build.
    rewrite (bind_Raise _ _ _ _ _ Hg). reflexivity.
Qed.

Lemma _get_logs_key_cached s d :
  _build_details (self s) = Some d -> snd (_get_logs_key env s) = s.
Proof.
  intros Hd. unfold _get_logs_key.
  rewrite (bind_Ok _ _ _ _ _ (_get_build_details_cached env _ _ Hd)).
  rewrite bind_lift. destruct (py_getitem d "logs") as [logs|]; [|reflexivity].
  rewrite bind_lift. destruct (py_getitem logs "streamName") as [sn|];
    [|reflexivity].
  rewrite bind_lift. destruct (py_str sn); reflexivity.
Qed.

(** X10: once the build details are cached, the accessors only read: each
    of [_get_build_details], [get_pr_id], [commit_id], [is_pr_build],
    [_get_logs_key] and [get_logs_url] leaves the whole state, requests
    included, exactly as it found it, whether it returns or raises; and
    [copy_logs] sends its requests but leaves the instance as it is. *)
Theorem accessors_only_read_cached_details s d :
  _build_details (self s) = Some d ->
  _get_build_details env s = (Ok d, s) /\
  snd (get_pr_id env s) = s /\
  snd (commit_id env s) = s /\
  snd (is_pr_build env s) = s /\
  snd (_get_logs_key env s) = s /\
  snd (get_logs_url env s) = s /\
  self (snd (copy_logs env s)) = self s.
Proof.
  intros Hd.
  pose proof (_get_build_details_cached env _ _ Hd) as Hc.
  assert (Hpr : snd (get_pr_id env s) = s).
  { unfold get_pr_id. rewrite (bind_Ok _ _ _ _ _ Hc), bind_lift.
    destruct (py_get d "sourceVersion" (VStr "")) as [sv|]; [|reflexivity].
    rewrite bind_lift. destruct (re_match sv) as [[ds|]|]; try reflexivity.
    rewrite bind_lift. destruct (py_int ds); reflexivity. }
  split; [exact Hc|]. split; [exact Hpr|]. split; [|split; [|split; [|split]]].
  - unfold commit_id. rewrite (bind_Ok _ _ _ _ _ Hc).
    destruct (py_getitem d "resolvedSourceVersion"); reflexivity.
  - unfold is_pr_build, bind.
    destruct (get_pr_id env s) as [[v|e] s1]; cbn [snd] in Hpr; subst s1;
      [destruct v|]; reflexivity.
  - apply (_get_logs_key_cached _ _ Hd).
  - unfold get_logs_url, bind. pose proof (_get_logs_key_cached _ _ Hd) as Hk.
    destruct (_get_logs_key env s) as [[k|e] s1]; cbn [snd] in Hk; subst s1;
      reflexivity.
  - unfold copy_logs. rewrite (bind_Ok _ _ _ _ _ Hc), bind_lift.
    destruct (py_getitem d "logs") as [logs|]; [|reflexivity].
    rewrite bind_lift.
    destruct (py_getitem logs "groupName") as [g|]; [|reflexivity].
    rewrite bind_lift.
    destruct (py_getitem logs "streamName") as [sn|]; [|reflexivity].
    rewrite bind_record, bind_lift.
    destruct (let (pages, failure) := filter_log_events env g [sn] in
              page_messages pages failure) as [msgs|]; [|reflexivity].
    rewrite bind_lift. destruct (py_join msgs) as [body|]; [|reflexivity].
    unfold bind at 1.
    match goal with
    | |- context [_get_logs_key env ?st] =>
        pose proof (_get_logs_key_cached st d Hd) as Hk;
        destruct (_get_logs_key env st) as [[k|e] s1]
    end; cbn [snd] in Hk; subst s1; [|reflexivity].
    rewrite bind_record. unfold lift.
    destruct (put_object env k body "text/plain"); reflexivity.
Qed.

End Edges.

(** ** The query value can be read back *)

Lemma form_decode_char c rest :
  form_decode (form_encode_char c ++ rest) = String c (form_decode rest).
Proof. each_ascii c; reflexivity. Qed.

Lemma form_decode_encode s : form_decode (form_encode s) = s.
Proof.
  induction s as [|c s IH]; [reflexivity|].
  cbn [form_encode]. rewrite form_decode_char, IH. reflexivity.
Qed.

Lemma str_app_inv_head (p a b : string) : (p ++ a = p ++ b)%string -> a = b.
Proof.
  induction p as [|c p IH]; cbn; [auto|]. intros H. inversion H. auto.
Qed.

Lemma str_length_app (a b : string) :
  String.length (a ++ b) = String.length a + String.length b.
Proof. induction a as [|c a IH]; cbn; [|rewrite IH]; reflexivity. Qed.

Lemma str_app_inv_tail (t a b : string) : (a ++ t = b ++ t)%string -> a = b.
Proof.
  revert b. induction a as [|c a IH]; intros [|c' b] H; cbn in H.
  - reflexivity.
  - apply (f_equal String.length) in H. cbn in H. rewrite str_length_app in H. lia.
  - apply (f_equal String.length) in H. cbn in H. rewrite str_length_app in H. lia.
  - inversion H. f_equal. auto.
Qed.

Lemma quote_plus_injective a b : quote_plus a = quote_plus b -> a = b.
Proof.
  intros H. rewrite <- (form_decode_encode a), <- (form_decode_encode b).
  rewrite <- !quote_plus_form_encode, H. reflexivity.
Qed.

Section Urls.

Variable env : Env.

(** X9: [quote_plus] loses nothing: decoding its result gives the string
    back, so two different strings never get the same encoding.  Hence two
    builds whose log streams differ get different URLs from
    [get_logs_url]. *)
Theorem log_urls_tell_the_streams_apart :
  (forall s, form_decode (quote_plus s) = s) /\
  (forall a b, quote_plus a = quote_plus b -> a = b) /\
  (forall s1 d1 t1 l1 sn1 s2 d2 t2 l2 sn2,
      _get_build_details env s1 = (Ok (VDict d1), t1) ->
      dict_get "logs" d1 = Some (VDict l1) ->
      dict_get "streamName" l1 = Some (VStr sn1) ->
      _get_build_details env s2 = (Ok (VDict d2), t2) ->
      dict_get "logs" d2 = Some (VDict l2) ->
      dict_get "streamName" l2 = Some (VStr sn2) ->
      fst (get_logs_url env s1) = fst (get_logs_url env s2) ->
      sn1 = sn2).
Proof.
  split; [intros s; rewrite quote_plus_form_encode; apply form_decode_encode|].
  split; [exact quote_plus_injective|].
  intros s1 d1 t1 l1 sn1 s2 d2 t2 l2 sn2 H1 Hl1 Hs1 H2 Hl2 Hs2.
  unfold get_logs_url.
  rewrite (bind_Ok _ _ _ _ _ (_get_logs_key_run env _ _ _ _ _ H1 Hl1 Hs1)).
  rewrite (bind_Ok _ _ _ _ _ (_get_logs_key_run env _ _ _ _ _ H2 Hl2 Hs2)).
  cbn [ret fst py_str]. intros H. inversion H as [Hurl].
  apply str_app_inv_head in Hurl. inversion Hurl as [Hq].
  apply quote_plus_injective in Hq.
  apply str_app_inv_tail in Hq. exact Hq.
Qed.

End Urls.

(** ** What [copy_logs] uploads *)

Lemma page_messages_failure pages e msgs :
  page_messages pages (Some e) = Ok msgs -> False.
Proof.
  revert msgs. induction pages as [|page pages IH]; intros msgs; cbn.
  - discriminate.
  - destruct (py_getitem page "events") as [events|]; [|discriminate].
    destruct (py_iter events) as [evs|]; [|discriminate].
    destruct (event_messages evs) as [ms|]; [|discriminate].
    destruct (page_messages pages (Some e)) as [rest|]; [|discriminate].
    intros _. apply (IH rest). reflexivity.
Qed.

Section Upload.

Variable env : Env.

Lemma _get_logs_key_lookup s dv s' logs sn :
  _get_build_details env s = (Ok dv, s') ->
  py_getitem dv "logs" = Ok logs ->
  py_getitem logs "streamName" = Ok sn ->
  _get_logs_key env s =
  (match py_str sn with
   | Ok stream => Ok (stream ++ "/build.log")%string
   | Raise e => Raise e
   end, s').
Proof.
  intros H Hl Hs. unfold _get_logs_key. rewrite (bind_Ok _ _ _ _ _ H).
  rewrite bind_lift, Hl, bind_lift, Hs, bind_lift.
  destruct (py_str sn); reflexivity.
Qed.

(** The requests of a run of [copy_logs], after detail resolution. *)
Lemma copy_logs_requests s dv s1 :
  _get_build_details env s = (Ok dv, s1) ->
  let s2 := snd (copy_logs env s) in
  self s2 = self s1 /\
  (calls s2 = calls s1 \/
   (exists g sn, calls s2 = calls s1 ++ [FilterLogEvents g [sn]]) \/
   exists logs g sn stream pages msgs body,
     py_getitem dv "logs" = Ok logs /\
     py_getitem logs "groupName" = Ok g /\
     py_getitem logs "streamName" = Ok sn /\
     py_str sn = Ok stream /\
     filter_log_events env g [sn] = (pages, None) /\
     page_messages pages None = Ok msgs /\
     py_join msgs = Ok body /\
     calls s2 = calls s1 ++
                [FilterLogEvents g [sn];
                 PutObject (stream ++ "/build.log") body "text/plain"]).
Proof.
  intros H s2. subst s2. unfold copy_logs.
  rewrite (bind_Ok _ _ _ _ _ H), bind_lift.
  destruct (py_getitem dv "logs") as [logs|] eqn:Hl; [|cbn; auto].
  rewrite bind_lift.
  destruct (py_getitem logs "groupName") as [g|] eqn:Hg; [|cbn; auto].
  rewrite bind_lift.
  destruct (py_getitem logs "streamName") as [sn|] eqn:Hs; [|cbn; auto].
  rewrite bind_record, bind_lift.
  destruct (filter_log_events env g [sn]) as [pages failure] eqn:Hf.
  destruct (page_messages pages failure) as [msgs|] eqn:Hm;
    [|cbn; split; [reflexivity|]; right; left; eauto].
  rewrite bind_lift.
  destruct (py_join msgs) as [body|] eqn:Hj;
    [|cbn; split; [reflexivity|]; right; left; eauto].
  assert (Hcached : _get_build_details env
                      {| self := self s1; calls := calls s1 ++ [FilterLogEvents g [sn]] |}
                    = (Ok dv, {| self := self s1;
                                 calls := calls s1 ++ [FilterLogEvents g [sn]] |})).
  { apply _get_build_details_cached. cbn.
    eapply _get_build_details_stored; eauto. }
  pose proof (_get_logs_key_lookup _ _ _ _ _ Hcached Hl Hs) as Hkey.
  destruct (py_str sn) as [stream|e] eqn:Hstr.
  2:{ rewrite (bind_Raise _ _ _ _ _ Hkey). cbn.
      split; [reflexivity|]. right. left. eauto. }
  rewrite (bind_Ok _ _ _ _ _ Hkey).
  rewrite bind_record. cbn [self calls]. rewrite <- app_assoc. cbn [app].
  assert (Hnone : failure = None).
  { destruct failure as [e|]; [|reflexivity].
    exfalso. apply (page_messages_failure _ _ _ Hm). }
  subst failure.
  split.
  - unfold lift. destruct (put_object env _ body "text/plain"); reflexivity.
  - right. right. exists logs, g, sn, stream, pages, msgs, body.
    repeat split; auto.
    unfold lift. destruct (put_object env _ body "text/plain"); reflexivity.
Qed.

(** X8: [copy_logs] uploads complete logs or nothing.  It sends at most one
    [put_object]; when it does, every page had been read, the paginator had
    ended without an exception, every message was a string and the stream
    name could be written as text; the body is the concatenation of all the
    messages and the key is [<streamName>/build.log] with content type
    [text/plain].  So when the paginator fails, or a page
    or an event lacks its field, nothing is written.  The instance itself is
    left as detail resolution left it. *)
Theorem copy_logs_uploads_all_or_nothing s dv s1 :
  _get_build_details env s = (Ok dv, s1) ->
  let s2 := snd (copy_logs env s) in
  let sent := calls_after (length (calls s1)) (calls s2) in
  self s2 = self s1 /\
  count_calls is_PutObject sent <= 1 /\
  (forall k body ct,
      In (PutObject k body ct) sent ->
      exists logs g sn stream pages msgs,
        py_getitem dv "logs" = Ok logs /\
        py_getitem logs "groupName" = Ok g /\
        py_getitem logs "streamName" = Ok sn /\
        py_str sn = Ok stream /\
        filter_log_events env g [sn] = (pages, None) /\
        page_messages pages None = Ok msgs /\
        py_join msgs = Ok body /\
        k = (stream ++ "/build.log")%string /\ ct = "text/plain") /\
  (forall logs g sn pages e,
      py_getitem dv "logs" = Ok logs ->
      py_getitem logs "groupName" = Ok g ->
      py_getitem logs "streamName" = Ok sn ->
      filter_log_events env g [sn] = (pages, Some e) ->
      count_calls is_PutObject sent = 0).
Proof.
  intros H s2 sent.
  destruct (copy_logs_requests _ _ _ H) as [Hself Hcalls]. fold s2 in Hself, Hcalls.
  split; [exact Hself|].
  destruct Hcalls as [Hc|[(g & sn & Hc)|(logs & g & sn & stream & pages & msgs & body &
                                          Hl & Hg & Hs & Hstr & Hf & Hm & Hj & Hc)]].
  - assert (Hsent : sent = []) by (unfold sent; rewrite Hc; apply calls_after_self).
    rewrite Hsent. repeat split; auto.
    intros k body ct [].
  - assert (Hsent : sent = [FilterLogEvents g [sn]])
      by (unfold sent; rewrite Hc; apply calls_after_app).
    rewrite Hsent. repeat split; auto.
    intros k body ct [Hin|[]]. discriminate Hin.
  - assert (Hsent : sent = [FilterLogEvents g [sn];
                            PutObject (stream ++ "/build.log") body "text/plain"])
      by (unfold sent; rewrite Hc; apply calls_after_app).
    rewrite Hsent. split; [cbn; lia|]. split.
    + intros k body' ct [Hin|[Hin|[]]]; [discriminate Hin|].
      inversion Hin. subst. exists logs, g, sn, stream, pages, msgs.
      repeat split; auto.
    + intros logs' g' sn' pages' e Hl' Hg' Hs' Hf'.
      rewrite Hl in Hl'. inversion Hl'. subst logs'.
      rewrite Hg in Hg'. inversion Hg'. subst g'.
      rewrite Hs in Hs'. inversion Hs'. subst sn'.
      rewrite Hf in Hf'. discriminate Hf'.
Qed.

End Upload.

(** ** When the encoding changes nothing *)

Lemma form_encode_char_length c : 1 <= String.length (form_encode_char c).
Proof. apply Nat.leb_le. each_ascii c; reflexivity. Qed.

Lemma form_encode_length s : String.length s <= String.length (form_encode s).
Proof.
  induction s as [|c s IH]; [reflexivity|].
  cbn [form_encode String.length]. rewrite str_length_app.
  pose proof (form_encode_char_length c). lia.
Qed.

Lemma form_encode_char_unsafe c :
  always_safe c = false ->
  form_encode_char c = "+"%string \/
  exists h1 h2 t, form_encode_char c = String "%" (String h1 (String h2 t)).
Proof.
  each_ascii c; intros H; try discriminate H;
    first [left; reflexivity|right; do 3 eexists; reflexivity].
Qed.

(** X14: [quote_plus] returns its argument unchanged exactly when the
    argument is made of letters, digits and [_.-~] only; any other
    character makes the result differ, and the result is never shorter than
    the argument. *)
Theorem quote_plus_fixes_unreserved_strings_only s :
  (quote_plus s = s <-> str_forall always_safe s = true) /\
  String.length s <= String.length (quote_plus s).
Proof.
  rewrite quote_plus_form_encode. split; [|apply form_encode_length].
  induction s as [|c s IH]; [split; reflexivity|].
  cbn [form_encode str_forall]. split.
  - intros H. destruct (always_safe c) eqn:Hc.
    + cbn [andb]. apply IH.
      unfold form_encode_char in H. rewrite Hc in H.
      destruct (Ascii.eqb c " ") eqn:Hsp.
      * apply Ascii.eqb_eq in Hsp. subst c. cbv in Hc. discriminate Hc.
      * cbn in H. inversion H as [Hs]. rewrite Hs. exact Hs.
    + exfalso.
      destruct (form_encode_char_unsafe c Hc) as [Hp|(h1 & h2 & t & Hp)];
        rewrite Hp in H; cbn in H; inversion H as [[Hch Hs]].
      * subst c. cbv in Hp. discriminate Hp.
      * apply (f_equal String.length) in Hs. cbn in Hs.
        rewrite str_length_app in Hs.
        pose proof (form_encode_length s). lia.
  - intros H. apply andb_prop in H. destruct H as [Hc Hs].
    unfold form_encode_char. rewrite Hc.
    destruct (Ascii.eqb c " ") eqn:Hsp.
    + apply Ascii.eqb_eq in Hsp. subst c. cbv in Hc. discriminate Hc.
    + cbn. f_equal. apply IH, Hs.
Qed.

(** ** The further theorems on the sample data *)

Lemma constructor_needs_the_three_fields_witness :
  __init__ (sample_event "FAILED") = Ok (sample_build "FAILED") /\
  (__init__ (VDict [("detail", VDict [("build-id", VStr "proj:b1")])]) = Raise KeyError ->
   KeyError = KeyError \/ KeyError = TypeError).
Proof.
  split.
  - apply (proj1 constructor_needs_the_three_fields).
    do 5 eexists. repeat split; reflexivity.
  - apply (proj2 constructor_needs_the_three_fields).
Defined.

Lemma build_outside_a_batch_is_left_alone_witness :
  let env := sample_env (sample_details "pr/42") (Raise (ServiceError "never asked")) in
  let s := fresh (sample_build "SUCCEEDED") in
  let s1 := snd (_get_build_details env s) in
  calls s1 = [BatchGetBuilds [VStr "proj:b1"]] /\
  status (self s1) = VStr "SUCCEEDED" /\ group_identifier (self s1) = VNone.
Proof.
  intros env s s1.
  destruct (build_outside_a_batch_is_left_alone env s _ eq_refl eq_refl eq_refl)
    as (_ & _ & Hc & Hst & Hg).
  repeat split; assumption.
Defined.

Lemma failed_query_is_not_cached_witness :
  let env := query_env (Ok (VDict [("builds", VList [])])) in
  let s := fresh (sample_build "FAILED") in
  let s3 := Nat.iter 3 (fun st => snd (_get_build_details env st)) s in
  calls s3 = repeat (BatchGetBuilds [VStr "proj:b1"]) 3 /\
  fst (_get_build_details env s3) = Raise IndexError.
Proof.
  intros env s s3.
  destruct (failed_query_is_not_cached env s IndexError eq_refl eq_refl)
    as (_ & _ & Hn).
  destruct (Hn 3) as (_ & Hc & Hr). split; assumption.
Defined.

Lemma detail_resolution_sends_at_most_two_requests_witness :
  let s := cached sample_item_details in
  calls (snd (_get_build_details (batch_env (batch_response [])) s)) = calls s.
Proof.
  intros s.
  apply (proj2 (detail_resolution_sends_at_most_two_requests
                  (batch_env (batch_response [])) s)).
  discriminate.
Defined.

Lemma batch_id_is_the_second_segment_witness :
  let env := batch_env (batch_response []) in
  let s := cached sample_item_details in
  calls (snd (_process_batch env s)) = [BatchGetBuildBatches [VStr "proj:batch1"]] /\
  _process_batch env (cached (VDict [("buildBatchArn", VStr "batch1")]))
  = (Raise IndexError, cached (VDict [("buildBatchArn", VStr "batch1")])).
Proof.
  intros env s. split.
  - apply (proj1 (batch_id_is_the_second_segment env s item_details eq_refl)
             "arn:aws:codebuild:eu-west-1:1:build-batch" "proj:batch1" "");
      [reflexivity|reflexivity|reflexivity|left; reflexivity].
  - apply (proj2 (batch_id_is_the_second_segment env
                    (cached (VDict [("buildBatchArn", VStr "batch1")])) _ eq_refl)
             "batch1"); reflexivity.
Defined.

Lemma batch_resolution_writes_in_order_witness :
  let env := batch_env (batch_response [sample_batch (Some "pr/7") (Some two_groups)]) in
  let s := cached sample_item_details in
  let s1 := snd (_process_batch env s) in
  exists batch_id batch v group summary,
    fetched_batch env batch_id = Ok batch /\
    py_getitem batch "sourceVersion" = Ok v /\
    py_getitem group "identifier" = Ok (group_identifier (self s1)) /\
    py_getitem group "currentBuildSummary" = Ok summary /\
    py_getitem summary "buildStatus" = Ok (status (self s1)).
Proof.
  intros env s s1.
  assert (Hchanged : status (self s1) <> status (self s)) by (cbv; discriminate).
  destruct (proj2 (batch_resolution_writes_in_order env s) (or_introl Hchanged))
    as (d & arn & batch_id & batch & v & _ & _ & _ & Hf & Hv & _ &
        listed & groups & group & _ & _ & _ & Hi & Hst).
  destruct (Hst Hchanged) as (summary & Hsum & Hbs).
  exists batch_id, batch, v, group, summary. repeat split; assumption.
Defined.

Lemma build_without_arn_fails_at_first_group_arn_witness :
  let env := {| batch_get_builds :=
                  fun _ => Ok (VDict [("builds", VList [VDict item_details_without_arn])]);
                batch_get_build_batches :=
                  fun _ => batch_response [sample_batch (Some "pr/7") (Some two_groups)];
                filter_log_events := fun _ _ => ([], None);
                put_object := fun _ _ _ => Ok tt;
                BUILD_LOGS_API_ENDPOINT := "" |} in
  exists s1,
    _get_build_details env (fresh (sample_build "FAILED")) = (Raise KeyError, s1) /\
    status (self s1) = VStr "FAILED" /\ group_identifier (self s1) = VNone.
Proof.
  intros env.
  destruct (build_without_arn_fails_at_first_group_arn env
              (fresh (sample_build "FAILED")) item_details_without_arn _
              "proj:batch1" _ (VStr "pr/7") []
              (sample_group (Some "windows") other_arn (Some "FAILED"))
              [sample_group (Some "linux") sample_arn (Some "SUCCEEDED")]
              eq_refl eq_refl eq_refl eq_refl eq_refl eq_refl eq_refl eq_refl)
    as (s1 & Hget & _ & Hst & Hg).
  - constructor.
  - constructor.
  - eexists. split; [reflexivity|]. right. eexists. reflexivity.
  - discriminate.
  - exists s1. repeat split; assumption.
Defined.

Lemma pr_id_is_not_negative_witness : (0 <= 42)%Z.
Proof.
  apply (pr_id_is_not_negative
           (sample_env (sample_details "pr/42") (Raise KeyError))
           (cached (sample_details "pr/42")) 42 (cached (sample_details "pr/42"))).
  reflexivity.
Defined.

Lemma sourceVersion_has_to_be_a_string_witness :
  let env := sample_env (VDict details_with_null_version) (Raise KeyError) in
  let s := cached (VDict details_with_null_version) in
  get_pr_id env s = (Raise TypeError, s) /\ is_pr_build env s = (Raise TypeError, s).
Proof.
  intros env s.
  apply (proj1 (sourceVersion_has_to_be_a_string env s _ s eq_refl)
           details_with_null_version VNone eq_refl eq_refl).
  intros x. discriminate.
Defined.

Lemma accessors_only_read_cached_details_witness :
  let env := sample_env (sample_details "pr/42") (Raise KeyError) in
  let s := cached (sample_details "pr/42") in
  snd (get_pr_id env s) = s /\ snd (get_logs_url env s) = s /\
  self (snd (copy_logs env s)) = self s.
Proof.
  intros env s.
  destruct (accessors_only_read_cached_details env s _ eq_refl)
    as (_ & Hpr & _ & _ & _ & Hurl & Hcopy).
  repeat split; assumption.
Defined.

Lemma log_urls_tell_the_streams_apart_witness :
  form_decode "my+stream%2F1%2Fbuild.log" = "my stream/1/build.log" /\
  "my stream/1" = "my stream/1".
Proof.
  split.
  - apply (proj1 (log_urls_tell_the_streams_apart
                    (sample_env (sample_details "pr/42") (Raise KeyError)))
             "my stream/1/build.log").
  - apply (proj2 (proj2 (log_urls_tell_the_streams_apart
                           (sample_env (sample_details "pr/42") (Raise KeyError))))
             (cached (sample_details "pr/42")) _ _ _ "my stream/1"
             (cached (sample_details "pr/42")) _ _ _ "my stream/1"
             eq_refl eq_refl eq_refl eq_refl eq_refl eq_refl eq_refl).
Defined.

Lemma copy_logs_uploads_all_or_nothing_witness :
  let s := cached (sample_details "pr/42") in
  count_calls is_PutObject (calls (snd (copy_logs broken_logs_env s))) = 0.
Proof.
  intros s.
  destruct (copy_logs_uploads_all_or_nothing broken_logs_env s _ s eq_refl)
    as (_ & _ & _ & Hnone).
  apply (Hnone sample_logs (VStr "/aws/codebuild/proj") (VStr "my stream/1")
           (firstn 1 sample_pages) (ServiceError "ThrottlingException"));
    reflexivity.
Defined.

Lemma batch_version_decides_pull_request_witness :
  let item := VDict [("sourceVersion", VStr "pr/5");
                     ("buildBatchArn", VStr "build-batch/proj:batch1")] in
  let env := sample_env item (batch_response [sample_batch (Some "main") None]) in
  let s1 := snd (_get_build_details env (fresh (sample_build "FAILED"))) in
  is_pr_build env s1 = (Ok false, s1).
Proof.
  intros item env s1.
  refine (proj2 (proj2 (proj2 (batch_version_decides_pull_request env
                                 (fresh (sample_build "FAILED"))
                                 [("sourceVersion", VStr "pr/5");
                                  ("buildBatchArn", VStr "build-batch/proj:batch1")]
                                 _ "proj:batch1" _ "main"
                                 eq_refl eq_refl eq_refl eq_refl eq_refl eq_refl))
                  _)).
  intros (ds & rest & Heq & _). discriminate Heq.
Defined.

Lemma quote_plus_fixes_unreserved_strings_only_witness :
  quote_plus "proj-1.0_a~b" = "proj-1.0_a~b".
Proof.
  apply (proj2 (proj1 (quote_plus_fixes_unreserved_strings_only "proj-1.0_a~b"))).
  reflexivity.
Defined.
